(** * Password strength analyzer: a shallow embedding of [password_analyzer.py]

    The Python class [PasswordAnalyzer] is embedded function by function.
    A Python [str] is its sequence of Unicode code points, a Python [float]
    is an IEEE 754 binary64 value ([spec_float] at precision 53), an
    exception is an explicit [Raise] result.  The JavaScript password
    generator of the page template is embedded after the analyzer. *)

From Stdlib Require Import ZArith List Bool Lia String Ascii QArith Qround.
From Stdlib Require Import Permutation DecimalString SpecFloat.
Import ListNotations.
Local Open Scope Z_scope.

(** ** Python strings *)

(** A [str] is the list of its code points; [ord] and [chr] are the
    identity on them. *)
Definition str := list Z.

Definition str_eqb (a b : str) : bool :=
  if list_eq_dec Z.eq_dec a b then true else false.

(** A string literal of the source (every literal there is ASCII unless
    noted) as a [str]. *)
Definition py (s : string) : str :=
  map (fun a => Z.of_N (N_of_ascii a)) (list_ascii_of_string s).

Definition len {A} (l : list A) : Z := Z.of_nat (List.length l).

(** [range(n)]: empty when [n <= 0]. *)
Definition py_range (n : Z) : list nat := seq 0 (Z.to_nat n).

(** [s[i]] for an index that the loops below keep in range. *)
Definition item (s : str) (i : nat) : Z := nth i s 0.

(** [s[i:j]] for [0 <= i <= j]: slicing clamps at the end of the string. *)
Definition slice {A} (s : list A) (i j : nat) : list A :=
  firstn (j - i) (skipn i s).

Fixpoint startswith (pat s : str) : bool :=
  match pat, s with
  | [], _ => true
  | _ :: _, [] => false
  | a :: pat', b :: s' => (a =? b) && startswith pat' s'
  end.

(** [pat in s] on strings: substring containment. *)
Fixpoint str_contains (pat s : str) : bool :=
  startswith pat s ||
  match s with
  | [] => false
  | _ :: s' => str_contains pat s'
  end.

(** [x in l] on a list of strings. *)
Definition list_contains (x : str) (l : list str) : bool :=
  existsb (str_eqb x) l.

(** A [for] loop over a list that threads the loop's variables. *)
Definition for_in {A S} (l : list A) (body : A -> S -> S) (s0 : S) : S :=
  fold_left (fun s x => body x s) l s0.

(** ** Character classes of the regular expressions *)

Definition in_range (lo hi c : Z) : bool := (lo <=? c) && (c <=? hi).

(** [[a-z]] and [[A-Z]]. *)
Definition re_lower (c : Z) : bool := in_range 97 122 c.
Definition re_upper (c : Z) : bool := in_range 65 90 c.

(** The code points of general category Nd (Unicode 14.0.0, the table of
    CPython 3.11), as runs [(first, count)].  The first run is ASCII
    [0-9]; the second one, ARABIC-INDIC DIGIT ZERO..NINE, has been Nd in
    every Unicode version. *)
Definition unicode_Nd : list (Z * Z) :=
  [ (48, 10); (1632, 10); (1776, 10); (1984, 10); (2406, 10); (2534, 10);
    (2662, 10); (2790, 10); (2918, 10); (3046, 10); (3174, 10); (3302, 10);
    (3430, 10); (3558, 10); (3664, 10); (3792, 10); (3872, 10); (4160, 10);
    (4240, 10); (6112, 10); (6160, 10); (6470, 10); (6608, 10); (6784, 10);
    (6800, 10); (6992, 10); (7088, 10); (7232, 10); (7248, 10); (42528, 10);
    (43216, 10); (43264, 10); (43472, 10); (43504, 10); (43600, 10);
    (44016, 10); (65296, 10); (66720, 10); (68912, 10); (69734, 10);
    (69872, 10); (69942, 10); (70096, 10); (70384, 10); (70736, 10);
    (70864, 10); (71248, 10); (71360, 10); (71472, 10); (71904, 10);
    (72016, 10); (72784, 10); (73040, 10); (73120, 10); (92768, 10);
    (92864, 10); (93008, 10); (120782, 50); (123200, 10); (123632, 10);
    (125264, 10); (130032, 10) ].

(** [\d] in a [str] pattern without [re.ASCII]: any Unicode decimal digit. *)
Definition re_digit (c : Z) : bool :=
  existsb (fun r => (fst r <=? c) && (c <? fst r + snd r)) unicode_Nd.

(** [[^a-zA-Z0-9]]: everything outside the three ASCII ranges. *)
Definition re_special (c : Z) : bool :=
  negb (in_range 97 122 c || in_range 65 90 c || in_range 48 57 c).

(** [re.findall] of a one-character class: the matches, left to right. *)
Definition re_findall (cls : Z -> bool) (s : str) : list str :=
  map (fun c => [c]) (filter cls s).

(** [bool(re.search(...))] of a one-character class. *)
Definition re_search (cls : Z -> bool) (s : str) : bool := existsb cls s.

(** ** [_analyze_characters] *)

Record CharacterAnalysis := {
  lowercase : Z;
  uppercase : Z;
  digits : Z;
  special : Z;
  has_lowercase : bool;
  has_uppercase : bool;
  has_digits : bool;
  has_special : bool;
  unique_chars : Z
}.

Definition _analyze_characters (password : str) : CharacterAnalysis :=
  {| lowercase := len (re_findall re_lower password);
     uppercase := len (re_findall re_upper password);
     digits := len (re_findall re_digit password);
     special := len (re_findall re_special password);
     has_lowercase := re_search re_lower password;
     has_uppercase := re_search re_upper password;
     has_digits := re_search re_digit password;
     has_special := re_search re_special password;
     unique_chars := len (nodup Z.eq_dec password) |}.

(** ** Exceptions *)

Inductive exn := OverflowError | ValueError | ZeroDivisionError.

Inductive result (A : Type) :=
| Ok (a : A)
| Raise (e : exn).
Arguments Ok {A} a.
Arguments Raise {A} e.

Definition bind {A B} (c : result A) (k : A -> result B) : result B :=
  match c with
  | Ok a => k a
  | Raise e => Raise e
  end.

Declare Scope result_scope.
Delimit Scope result_scope with result.
Notation "x <- c ;; k" := (bind c (fun x => k))
  (at level 61, c at next level, right associativity) : result_scope.

(** ** Python numbers *)

(** binary64. *)
Definition prec : Z := 53.
Definition emax : Z := 1024.
Definition float := spec_float.

Definition fadd : float -> float -> float := SFadd prec emax.
Definition fsub : float -> float -> float := SFsub prec emax.
Definition fmul : float -> float -> float := SFmul prec emax.
Definition fdiv : float -> float -> float := SFdiv prec emax.

(** The float nearest to [n / d] (ties to even) with the sign [s], for
    [0 <= n] and [0 < d]: the quotient is taken to more than 60 bits and
    the rest of the division is kept in a sticky last bit. *)
Definition float_of_ratio (s : bool) (n d : Z) : float :=
  if n =? 0 then S754_zero s
  else
    let sh := 64 + Z.log2_up d in
    let q := (n * 2 ^ sh) / d in
    let r := (n * 2 ^ sh) mod d in
    let m := 2 * q + (if r =? 0 then 0 else 1) in
    binary_normalize prec emax (cond_Zopp s m) (- (sh + 1)) s.

(** An [int] operand of a float operation is converted to the nearest
    float.  ([len] of a [str] is below 2^63, far from the 2^1024 where the
    conversion raises.) *)
Definition float_of_int (z : Z) : float :=
  binary_normalize prec emax z 0 false.

(** A float literal of the source with [k] decimal places: the float
    nearest to [m / 10^k]. *)
Definition float_lit (m : Z) (k : Z) : float :=
  float_of_ratio false m (10 ^ k).

Inductive pynum :=
| PInt (z : Z)
| PFloat (f : float).

Definition to_float (x : pynum) : float :=
  match x with
  | PInt z => float_of_int z
  | PFloat f => f
  end.

Definition py_add (x y : pynum) : pynum :=
  match x, y with
  | PInt a, PInt b => PInt (a + b)
  | _, _ => PFloat (fadd (to_float x) (to_float y))
  end.

Definition py_sub (x y : pynum) : pynum :=
  match x, y with
  | PInt a, PInt b => PInt (a - b)
  | _, _ => PFloat (fsub (to_float x) (to_float y))
  end.

Definition py_mul (x y : pynum) : pynum :=
  match x, y with
  | PInt a, PInt b => PInt (a * b)
  | _, _ => PFloat (fmul (to_float x) (to_float y))
  end.

(** [x < y] and [x >= y].  An [int] against a [float] is compared
    exactly by Python; the [int] sides of the source are small literals,
    which convert exactly. *)
Definition py_lt (x y : pynum) : bool :=
  match x, y with
  | PInt a, PInt b => a <? b
  | _, _ => SFltb (to_float x) (to_float y)
  end.

Definition py_ge (x y : pynum) : bool :=
  match x, y with
  | PInt a, PInt b => b <=? a
  | _, _ => SFleb (to_float y) (to_float x)
  end.

(** [n / d] rounded to the nearest integer, ties to even ([0 <= n],
    [0 < d]). *)
Definition rne_div (n d : Z) : Z :=
  let q := n / d in
  let r := n mod d in
  match 2 * r ?= d with
  | Lt => q
  | Gt => q + 1
  | Eq => if Z.even q then q else q + 1
  end.

(** The integer nearest to [c * |x|] (ties to even) for a finite [x]. *)
Definition scaled_rne (c : Z) (x : float) : Z :=
  match x with
  | S754_finite _ m e =>
      if 0 <=? e then c * Zpos m * 2 ^ e
      else rne_div (c * Zpos m) (2 ^ (- e))
  | _ => 0
  end.

Definition sign_of (x : float) : bool :=
  match x with
  | S754_zero s | S754_infinity s | S754_finite s _ _ => s
  | S754_nan => false
  end.

(** [round(x)] with one argument: an [int]; ties go to the even
    neighbour; NaN and the infinities raise. *)
Definition py_round (x : pynum) : result Z :=
  match x with
  | PInt z => Ok z
  | PFloat S754_nan => Raise ValueError
  | PFloat (S754_infinity _) => Raise OverflowError
  | PFloat f => Ok (cond_Zopp (sign_of f) (scaled_rne 1 f))
  end.

(** [round(x, 2)] on a float: the decimal with two places nearest to the
    exact value of [x] (ties to even), read back as a float. *)
Definition round_2 (x : float) : float :=
  match x with
  | S754_finite s _ _ => float_of_ratio s (scaled_rne 100 x) 100
  | _ => x
  end.

Definition py_round_2 (x : pynum) : pynum :=
  match x with
  | PInt z => PInt z
  | PFloat f => PFloat (round_2 f)
  end.

Definition decimal (z : Z) : str :=
  py (NilZero.string_of_uint (N.to_uint (Z.to_N z))).

(** The format [{x:.1f}]: the exact value of [x] to one decimal place,
    ties to even. *)
Definition format_1f (x : float) : str :=
  match x with
  | S754_nan => py "nan"
  | S754_infinity s => (if s then py "-" else []) ++ py "inf"
  | _ =>
      let k := scaled_rne 10 x in
      (if sign_of x then py "-" else [])
        ++ decimal (k / 10) ++ py "." ++ decimal (k mod 10)
  end.

(** The float of an operand of a float operation: an [int] that rounds
    beyond the largest float raises [OverflowError]. *)
Definition as_float (x : pynum) : result float :=
  match x with
  | PFloat f => Ok f
  | PInt z =>
      match float_of_int z with
      | S754_infinity _ => Raise OverflowError
      | f => Ok f
      end
  end.

(** [x / y]: true division, always a float.  Two [int]s are divided
    exactly and the quotient is rounded once, [OverflowError] if it is
    too large for a float; otherwise both operands are taken as floats
    and divided as floats.  A zero divisor raises [ZeroDivisionError]. *)
Definition py_truediv (x y : pynum) : result pynum :=
  match x, y with
  | PInt a, PInt b =>
      if b =? 0 then Raise ZeroDivisionError
      else
        match float_of_ratio (xorb (a <? 0) (b <? 0)) (Z.abs a) (Z.abs b) with
        | S754_infinity _ => Raise OverflowError
        | q => Ok (PFloat q)
        end
  | _, _ =>
      (a <- as_float x ;;
       b <- as_float y ;;
       match b with
       | S754_zero _ => Raise ZeroDivisionError
       | _ => Ok (PFloat (fdiv a b))
       end)%result
  end.

(** ** What the embedding takes from the platform

    The C library's [log2] and [pow] where IEEE 754 does not fix their
    result, and the Unicode lower-casing of a string that is not pure
    ASCII. *)
Class platform := {
  libm_log2 : float -> float;
  libm_pow : float -> float -> float;
  unicode_lower : str -> str
}.

Section Runtime.
Context `{platform}.

(** [math.log2] of an [int]: [ValueError] outside the domain; the
    exponent itself on a power of two (as C [log2] and CPython's
    [frexp] fallback both return it); the C library's value elsewhere. *)
Definition math_log2 (n : Z) : result float :=
  if n <=? 0 then Raise ValueError
  else if n =? 2 ^ Z.log2 n then Ok (float_of_int (Z.log2 n))
  else Ok (libm_log2 (float_of_int n)).

(** [2 ** y].  An [int] exponent gives an [int], or the exact float
    when it is negative.  On a float exponent CPython calls C [pow] and
    raises [OverflowError] when a finite exponent gives an infinite
    result, which for base 2 is from 1024 on (the float exponents of the
    source are not negative). *)
Definition pow2 (y : pynum) : result pynum :=
  match y with
  | PInt n =>
      if 0 <=? n then Ok (PInt (2 ^ n))
      else Ok (PFloat (float_of_ratio false 1 (2 ^ (- n))))
  | PFloat S754_nan => Ok (PFloat S754_nan)
  | PFloat (S754_infinity s) =>
      Ok (PFloat (if s then S754_zero false else S754_infinity false))
  | PFloat (S754_zero _) => Ok (PFloat (float_of_int 1))
  | PFloat f =>
      if SFleb (float_of_int 1024) f then Raise OverflowError
      else Ok (PFloat (libm_pow (float_of_int 2) f))
  end.

Definition is_ascii (c : Z) : bool := in_range 0 127 c.

Definition ascii_lower (c : Z) : Z := if re_upper c then c + 32 else c.

(** [s.lower()]. *)
Definition lower (s : str) : str :=
  if forallb is_ascii s then map ascii_lower s else unicode_lower s.
End Runtime.

(** ** The report *)

Record PatternAnalysis := {
  repeated_chars : list Z;
  sequential : list str;
  keyboard_patterns : list str;
  common_substitutions : list str;
  dictionary_words : list str
}.

Record Requirements := {
  req_min_length : bool;
  req_has_uppercase : bool;
  req_has_lowercase : bool;
  req_has_digit : bool;
  req_has_special : bool;
  all_met : bool
}.

Record SecurityChecks := {
  is_common : bool;
  contains_personal_info : bool;
  pwned_check : bool;
  meets_basic_requirements : Requirements
}.

Record Analysis := {
  password : str;
  pw_length : Z;
  strength_score : Z;
  strength_level : str;
  character_analysis : CharacterAnalysis;
  pattern_analysis : PatternAnalysis;
  security_checks : SecurityChecks;
  entropy : pynum;
  crack_time : str;
  recommendations : list str
}.

Definition set_strength_score (a : Analysis) (v : Z) : Analysis :=
  {| password := password a; pw_length := pw_length a;
     strength_score := v; strength_level := strength_level a;
     character_analysis := character_analysis a;
     pattern_analysis := pattern_analysis a;
     security_checks := security_checks a; entropy := entropy a;
     crack_time := crack_time a; recommendations := recommendations a |}.

Definition set_strength_level (a : Analysis) (v : str) : Analysis :=
  {| password := password a; pw_length := pw_length a;
     strength_score := strength_score a; strength_level := v;
     character_analysis := character_analysis a;
     pattern_analysis := pattern_analysis a;
     security_checks := security_checks a; entropy := entropy a;
     crack_time := crack_time a; recommendations := recommendations a |}.

Definition set_recommendations (a : Analysis) (v : list str) : Analysis :=
  {| password := password a; pw_length := pw_length a;
     strength_score := strength_score a; strength_level := strength_level a;
     character_analysis := character_analysis a;
     pattern_analysis := pattern_analysis a;
     security_checks := security_checks a; entropy := entropy a;
     crack_time := crack_time a; recommendations := v |}.

(** The truth value of a list: it is not empty. *)
Definition truthy {A} (l : list A) : bool :=
  match l with
  | [] => false
  | _ :: _ => true
  end.

(** ** Pattern finders that need no lower-casing *)

(** The result goes through [set]: one occurrence of each character is
    left, in an order Python does not fix. *)
Definition _find_repeated_chars (password : str) : list Z :=
  let repeated :=
    for_in (py_range (len password - 1))
      (fun i repeated =>
         if item password i =? item password (i + 1)
         then repeated ++ [item password i]
         else repeated)
      [] in
  nodup Z.eq_dec repeated.

Definition _find_sequential_patterns (password : str) : list str :=
  for_in (py_range (len password - 2))
    (fun i sequences =>
       if (item password (i + 1) =? item password i + 1)
          && (item password (i + 2) =? item password i + 2)
       then sequences ++ [slice password i (i + 3)]
       else sequences)
    [].

(** The arrow between the two characters is, in the source file as it
    is, the three code points U+201A U+00DC U+00ED. *)
Definition substitutions : list (Z * Z) :=
  [ (64, 97); (51, 101); (49, 105); (48, 111); (53, 115);
    (55, 116); (52, 97); (56, 98); (33, 105) ].

Definition _find_common_substitutions (password : str) : list str :=
  for_in substitutions
    (fun kv found =>
       if str_contains [fst kv] password
       then found ++ [[fst kv] ++ [32; 8218; 220; 237; 32] ++ [snd kv]]
       else found)
    [].

Definition _meets_basic_requirements (password : str) : Requirements :=
  let min_length := 8 <=? len password in
  let has_uppercase := re_search re_upper password in
  let has_lowercase := re_search re_lower password in
  let has_digit := re_search re_digit password in
  let has_special := re_search re_special password in
  {| req_min_length := min_length;
     req_has_uppercase := has_uppercase;
     req_has_lowercase := has_lowercase;
     req_has_digit := has_digit;
     req_has_special := has_special;
     all_met := forallb (fun b : bool => b)
                  [min_length; has_uppercase; has_lowercase; has_digit;
                   has_special] |}.

(** ** Score and level *)

Definition _calculate_strength_score (analysis : Analysis) : result Z :=
  let score := PInt 0 in
  (* Length score (0-25 points) *)
  let length := pw_length analysis in
  let score :=
    if 12 <=? length then py_add score (PInt 25)
    else if 8 <=? length then py_add score (PInt 15)
    else if 6 <=? length then py_add score (PInt 10)
    else if 4 <=? length then py_add score (PInt 5)
    else score in
  (* Character diversity (0-25 points) *)
  let char_types :=
    0 + Z.b2z (has_lowercase (character_analysis analysis))
      + Z.b2z (has_uppercase (character_analysis analysis))
      + Z.b2z (has_digits (character_analysis analysis))
      + Z.b2z (has_special (character_analysis analysis)) in
  let score :=
    py_add score (py_mul (PInt char_types) (PFloat (float_lit 625 2))) in
  (* Entropy bonus (0-20 points) *)
  let entropy := entropy analysis in
  let score :=
    if py_ge entropy (PInt 60) then py_add score (PInt 20)
    else if py_ge entropy (PInt 40) then py_add score (PInt 15)
    else if py_ge entropy (PInt 25) then py_add score (PInt 10)
    else if py_ge entropy (PInt 15) then py_add score (PInt 5)
    else score in
  (* Security checks (0-30 points) *)
  let score :=
    if negb (is_common (security_checks analysis))
    then py_add score (PInt 10) else score in
  let score :=
    if negb (pwned_check (security_checks analysis))
    then py_add score (PInt 10) else score in
  let score :=
    if all_met (meets_basic_requirements (security_checks analysis))
    then py_add score (PInt 10) else score in
  (* Penalties *)
  let score :=
    if truthy (repeated_chars (pattern_analysis analysis))
    then py_sub score (PInt 5) else score in
  let score :=
    if truthy (sequential (pattern_analysis analysis))
    then py_sub score (PInt 10) else score in
  let score :=
    if truthy (keyboard_patterns (pattern_analysis analysis))
    then py_sub score (PInt 10) else score in
  let score :=
    if truthy (dictionary_words (pattern_analysis analysis))
    then py_sub score (PInt 15) else score in
  (r <- py_round score ;; Ok (Z.max 0 (Z.min 100 r)))%result.

Definition _get_strength_level (score : Z) : str :=
  if 80 <=? score then py "Very Strong"
  else if 60 <=? score then py "Strong"
  else if 40 <=? score then py "Moderate"
  else if 20 <=? score then py "Weak"
  else py "Very Weak".

Definition _get_recommendations (analysis : Analysis) : list str :=
  let recommendations := [] in
  let recommendations :=
    if pw_length analysis <? 8
    then recommendations ++ [py "Use at least 8 characters"]
    else if pw_length analysis <? 12
    then recommendations
           ++ [py "Consider using 12+ characters for better security"]
    else recommendations in
  let char_analysis := character_analysis analysis in
  let recommendations :=
    if negb (has_uppercase char_analysis)
    then recommendations ++ [py "Add uppercase letters"]
    else recommendations in
  let recommendations :=
    if negb (has_lowercase char_analysis)
    then recommendations ++ [py "Add lowercase letters"]
    else recommendations in
  let recommendations :=
    if negb (has_digits char_analysis)
    then recommendations ++ [py "Add numbers"]
    else recommendations in
  let recommendations :=
    if negb (has_special char_analysis)
    then recommendations ++ [py "Add special characters (!@#$%^&*)"]
    else recommendations in
  let recommendations :=
    if is_common (security_checks analysis)
    then recommendations ++ [py "Avoid common passwords"]
    else recommendations in
  let recommendations :=
    if truthy (repeated_chars (pattern_analysis analysis))
    then recommendations ++ [py "Avoid repeated characters"]
    else recommendations in
  let recommendations :=
    if truthy (sequential (pattern_analysis analysis))
    then recommendations ++ [py "Avoid sequential patterns (abc, 123)"]
    else recommendations in
  let recommendations :=
    if truthy (keyboard_patterns (pattern_analysis analysis))
    then recommendations ++ [py "Avoid keyboard patterns (qwerty, asdf)"]
    else recommendations in
  let recommendations :=
    if truthy (dictionary_words (pattern_analysis analysis))
    then recommendations ++ [py "Avoid dictionary words"]
    else recommendations in
  if negb (truthy recommendations)
  then recommendations
         ++ [py "Excellent password! Consider changing it regularly."]
  else recommendations.

(** [_format_time]: the argument is the float that [_estimate_crack_time]
    computes. *)
Definition _format_time (seconds : pynum) : result str :=
  (if py_lt seconds (PInt 1) then Ok (py "Instant")
   else if py_lt seconds (PInt 60) then
     Ok (format_1f (to_float seconds) ++ py " seconds")
   else if py_lt seconds (PInt 3600) then
     v <- py_truediv seconds (PInt 60) ;;
     Ok (format_1f (to_float v) ++ py " minutes")
   else if py_lt seconds (PInt 86400) then
     v <- py_truediv seconds (PInt 3600) ;;
     Ok (format_1f (to_float v) ++ py " hours")
   else if py_lt seconds (PInt 31536000) then
     v <- py_truediv seconds (PInt 86400) ;;
     Ok (format_1f (to_float v) ++ py " days")
   else
     v <- py_truediv seconds (PInt 31536000) ;;
     Ok (format_1f (to_float v) ++ py " years"))%result.

(** ** The analyzer *)

Record PasswordAnalyzer := { common_passwords : list str }.

Definition _load_common_passwords : list str :=
  map py
    [ "password"; "123456"; "123456789"; "qwerty"; "abc123";
      "password123"; "admin"; "letmein"; "welcome"; "monkey";
      "dragon"; "master"; "shadow"; "superman"; "michael";
      "football"; "baseball"; "liverpool"; "jordan"; "princess" ]%string.

(** [__init__], and the module's [analyzer = PasswordAnalyzer()]. *)
Definition PasswordAnalyzer_init : PasswordAnalyzer :=
  {| common_passwords := _load_common_passwords |}.

Definition analyzer : PasswordAnalyzer := PasswordAnalyzer_init.

(** [re.search] of a pattern that is matched at a position by [here]. *)
Fixpoint re_search_at (here : str -> bool) (s : str) : bool :=
  here s ||
  match s with
  | [] => false
  | _ :: s' => re_search_at here s'
  end.

(** [\d{n}] at the start of [s]. *)
Fixpoint digits_here (n : nat) (s : str) : bool :=
  match n with
  | O => true
  | S n' =>
      match s with
      | [] => false
      | c :: s' => re_digit c && digits_here n' s'
      end
  end.

(** An alternation of literals at the start of [s]. *)
Definition any_here (words : list string) (s : str) : bool :=
  existsb (fun w => startswith (py w) s) words.

Section Analyzer.
Context `{platform}.
Variable self : PasswordAnalyzer.

Definition _find_keyboard_patterns (password : str) : list str :=
  let keyboard_rows :=
    map py ["qwertyuiop"; "asdfghjkl"; "zxcvbnm"; "1234567890"]%string in
  for_in keyboard_rows
    (fun row patterns =>
       for_in (py_range (len row - 2))
         (fun i patterns =>
            let pattern := slice row i (i + 3) in
            if str_contains (lower pattern) (lower password)
            then patterns ++ [pattern]
            else patterns)
         patterns)
    [].

Definition _find_dictionary_words (password : str) : list str :=
  let common_words :=
    map py [ "password"; "admin"; "user"; "login"; "welcome";
             "hello"; "world"; "test"; "demo"; "sample" ]%string in
  for_in common_words
    (fun word found_words =>
       if str_contains (lower word) (lower password)
       then found_words ++ [word]
       else found_words)
    [].

Definition _contains_personal_info (password : str) : bool :=
  let personal_patterns :=
    [ digits_here 4;
      any_here [ "jan"; "feb"; "mar"; "apr"; "may"; "jun"; "jul"; "aug";
                 "sep"; "oct"; "nov"; "dec" ]%string;
      any_here [ "monday"; "tuesday"; "wednesday"; "thursday"; "friday";
                 "saturday"; "sunday" ]%string ] in
  existsb (fun pattern => re_search_at pattern (lower password))
    personal_patterns.

Definition _check_pwned_passwords (password : str) : bool :=
  list_contains (lower password) (common_passwords self).

Definition _analyze_patterns (password : str) : PatternAnalysis :=
  {| repeated_chars := _find_repeated_chars password;
     sequential := _find_sequential_patterns password;
     keyboard_patterns := _find_keyboard_patterns password;
     common_substitutions := _find_common_substitutions password;
     dictionary_words := _find_dictionary_words password |}.

Definition _security_checks (password : str) : SecurityChecks :=
  {| is_common := list_contains (lower password) (common_passwords self);
     contains_personal_info := _contains_personal_info password;
     pwned_check := _check_pwned_passwords password;
     meets_basic_requirements := _meets_basic_requirements password |}.

Definition _calculate_entropy (password : str) : result pynum :=
  let charset_size := 0 in
  let charset_size :=
    if re_search re_lower password then charset_size + 26
    else charset_size in
  let charset_size :=
    if re_search re_upper password then charset_size + 26
    else charset_size in
  let charset_size :=
    if re_search re_digit password then charset_size + 10
    else charset_size in
  let charset_size :=
    if re_search re_special password then charset_size + 32
    else charset_size in
  if charset_size =? 0 then Ok (PInt 0)
  else
    (l <- math_log2 charset_size ;;
     let entropy := py_mul (PInt (len password)) (PFloat l) in
     Ok (py_round_2 entropy))%result.

Definition _estimate_crack_time (password : str) : result str :=
  (entropy <- _calculate_entropy password ;;
   (* Assumptions: 1 billion guesses per second *)
   let guesses_per_second := PFloat (float_lit 1000000000 0) in
   total_combinations <- pow2 entropy ;;
   (* Average time is half of total combinations *)
   seconds <- py_truediv total_combinations
                (py_mul (PInt 2) guesses_per_second) ;;
   _format_time seconds)%result.

Definition analyze_password (password : str) : result Analysis :=
  (let characters := _analyze_characters password in
   let patterns := _analyze_patterns password in
   let checks := _security_checks password in
   entropy <- _calculate_entropy password ;;
   crack_time <- _estimate_crack_time password ;;
   let analysis :=
     {| password := password;
        pw_length := len password;
        strength_score := 0;
        strength_level := py "Very Weak";
        character_analysis := characters;
        pattern_analysis := patterns;
        security_checks := checks;
        entropy := entropy;
        crack_time := crack_time;
        recommendations := [] |} in
   (* Calculate overall strength score *)
   score <- _calculate_strength_score analysis ;;
   let analysis := set_strength_score analysis score in
   let analysis :=
     set_strength_level analysis
       (_get_strength_level (strength_score analysis)) in
   let analysis :=
     set_recommendations analysis (_get_recommendations analysis) in
   Ok analysis)%result.
End Analyzer.

(** ** The specification's side of the claims *)

(** The score as the specification states it, in exact arithmetic. *)
Definition spec_length_points (n : Z) : Q :=
  if 12 <=? n then 25
  else if 8 <=? n then 15
  else if 6 <=? n then 10
  else if 4 <=? n then 5
  else 0.

Definition spec_entropy_points (e : pynum) : Q :=
  if py_ge e (PInt 60) then 20
  else if py_ge e (PInt 40) then 15
  else if py_ge e (PInt 25) then 10
  else if py_ge e (PInt 15) then 5
  else 0.

Definition points (b : bool) (q : Q) : Q := if b then q else 0.

Definition spec_points (a : Analysis) : Q :=
  let ca := character_analysis a in
  let sc := security_checks a in
  let pa := pattern_analysis a in
  (spec_length_points (pw_length a)
   + points (has_lowercase ca) (25 # 4) + points (has_uppercase ca) (25 # 4)
   + points (has_digits ca) (25 # 4) + points (has_special ca) (25 # 4)
   + spec_entropy_points (entropy a)
   + points (negb (is_common sc)) 10 + points (negb (pwned_check sc)) 10
   + points (all_met (meets_basic_requirements sc)) 10
   - points (truthy (repeated_chars pa)) 5
   - points (truthy (sequential pa)) 10
   - points (truthy (keyboard_patterns pa)) 10
   - points (truthy (dictionary_words pa)) 15)%Q.

(** Rounding to the nearest integer, a tie to the even one. *)
Definition round_half_even (q : Q) : Z :=
  let f := Qfloor q in
  match ((q - inject_Z f) ?= (1 # 2))%Q with
  | Lt => f
  | Gt => f + 1
  | Eq => if Z.even f then f else f + 1
  end.

Definition clamp (lo hi x : Z) : Z := Z.max lo (Z.min hi x).

Definition spec_score (a : Analysis) : Z :=
  clamp 0 100 (round_half_even (spec_points a)).

Definition spec_level (score : Z) : string :=
  if 80 <=? score then "Very Strong"
  else if 60 <=? score then "Strong"
  else if 40 <=? score then "Moderate"
  else if 20 <=? score then "Weak"
  else "Very Weak".

(** The charset size that [_calculate_entropy] adds up, read off the
    counts of the code's own character profile: a category counts once,
    however many of its characters there are. *)
Definition profile_charset_size (profile : CharacterAnalysis) : Z :=
  (if 0 <? lowercase profile then 26 else 0)
  + (if 0 <? uppercase profile then 26 else 0)
  + (if 0 <? digits profile then 10 else 0)
  + (if 0 <? special profile then 32 else 0).

Definition no_category (profile : CharacterAnalysis) : bool :=
  negb (has_lowercase profile || has_uppercase profile
        || has_digits profile || has_special profile).

(** The character categories as the specification has them: ASCII
    [a-z], [A-Z] and [0-9], and everything else, Unicode included,
    special. *)
Definition spec_lowercase (c : Z) : bool := in_range 97 122 c.
Definition spec_uppercase (c : Z) : bool := in_range 65 90 c.
Definition spec_digit (c : Z) : bool := in_range 48 57 c.
Definition spec_special (c : Z) : bool :=
  negb (spec_lowercase c || spec_uppercase c || spec_digit c).

(** The charset size of the specification: 26, 26, 10 and 32 for the
    categories of which the password has a character. *)
Definition spec_charset_size (p : str) : Z :=
  (if existsb spec_lowercase p then 26 else 0)
  + (if existsb spec_uppercase p then 26 else 0)
  + (if existsb spec_digit p then 10 else 0)
  + (if existsb spec_special p then 32 else 0).

(** The entropy of the specification: 0 when no category is present,
    otherwise [length * log2(charsetSize)] rounded to two decimal
    places. *)
Definition spec_entropy `{platform} (p : str) : result pynum :=
  let size := spec_charset_size p in
  if size =? 0 then Ok (PInt 0)
  else
    (l <- math_log2 size ;;
     Ok (PFloat (round_2 (fmul (float_of_int (len p)) l))))%result.

(** A three-character window whose codes go up, or down, in steps of one. *)
Definition ascending_run (w : str) : bool :=
  match w with
  | [a; b; c] => (b =? a + 1) && (c =? a + 2)
  | _ => false
  end.

Definition descending_run (w : str) : bool :=
  match w with
  | [a; b; c] => (b =? a - 1) && (c =? a - 2)
  | _ => false
  end.

(** The window of three characters that starts at index [i]. *)
Definition window (password : str) (i : nat) : str :=
  slice password i (i + 3).

(** Two reports that differ at most in the substitution hints and in the
    personal-info flag. *)
Definition same_but_hints_and_personal (a b : Analysis) : Prop :=
  password a = password b /\ pw_length a = pw_length b
  /\ strength_score a = strength_score b
  /\ strength_level a = strength_level b
  /\ character_analysis a = character_analysis b
  /\ repeated_chars (pattern_analysis a) = repeated_chars (pattern_analysis b)
  /\ sequential (pattern_analysis a) = sequential (pattern_analysis b)
  /\ keyboard_patterns (pattern_analysis a)
     = keyboard_patterns (pattern_analysis b)
  /\ dictionary_words (pattern_analysis a)
     = dictionary_words (pattern_analysis b)
  /\ is_common (security_checks a) = is_common (security_checks b)
  /\ pwned_check (security_checks a) = pwned_check (security_checks b)
  /\ meets_basic_requirements (security_checks a)
     = meets_basic_requirements (security_checks b)
  /\ entropy a = entropy b /\ crack_time a = crack_time b
  /\ recommendations a = recommendations b.

(** ** The password generator of the page ([generatePassword], JavaScript) *)

(** A JavaScript string of the generator is ASCII: a list of characters. *)
Definition jsstr := list ascii.

Definition js (s : string) : jsstr := list_ascii_of_string s.

(** [s[i]]: [undefined] outside the string. *)
Definition js_index (s : jsstr) (i : Z) : option ascii :=
  if (0 <=? i) && (i <? len s) then nth_error s (Z.to_nat i) else None.

(** [password += s[i]]: [undefined] is appended as its name. *)
Definition js_append (password : jsstr) (c : option ascii) : jsstr :=
  match c with
  | Some c => password ++ [c]
  | None => password ++ js "undefined"
  end.

(** A computation that draws from [Math.random]: the state is the number
    of draws made so far. *)
Definition rand (A : Type) : Type := nat -> A * nat.

Definition ret {A} (a : A) : rand A := fun s => (a, s).

Definition rbind {A B} (c : rand A) (k : A -> rand B) : rand B :=
  fun s => let (a, s') := c s in k a s'.

Declare Scope rand_scope.
Delimit Scope rand_scope with rand.
Notation "x <~ c ;; k" := (rbind c (fun x => k))
  (at level 61, c at next level, right associativity) : rand_scope.

Definition upper_chars : jsstr := js "ABCDEFGHIJKLMNOPQRSTUVWXYZ".
Definition lower_chars : jsstr := js "abcdefghijklmnopqrstuvwxyz".
Definition digit_chars : jsstr := js "0123456789".
Definition symbol_chars : jsstr := js "!@#$%^&*".

Definition is_in (cls : jsstr) (c : ascii) : bool :=
  existsb (Ascii.eqb c) cls.

Section Browser.
(** The values [Math.random()] returns, in order, and what the engine's
    [Array.prototype.sort] makes of an array under the comparator
    [() => Math.random() - 0.5] from a given draw on. *)
Variable random_values : nat -> Q.
Variable sort_random : jsstr -> rand jsstr.

Definition Math_random : rand Q := fun s => (random_values s, S s).

(** [Math.floor(Math.random() * n)]. *)
Definition random_index (n : Z) : rand Z :=
  (r <~ Math_random ;; ret (Qfloor (r * inject_Z n)))%rand.

(** The loop [for (let i = lo; i < hi; i++) password += chars[...]]. *)
Definition fill (chars : jsstr) (lo hi : Z) (password : jsstr)
  : rand jsstr :=
  for_in (py_range (hi - lo))
    (fun _ (acc : rand jsstr) =>
       (password <~ acc ;;
        i <~ random_index (len chars) ;;
        ret (js_append password (js_index chars i)))%rand)
    (ret password).

(** The body of [generatePassword]; the result is the value it stores
    in the password field. *)
Definition generatePassword : rand jsstr :=
  (let chars :=
     js "ABCDEFGHIJKLMNOPQRSTUVWXYZabcdefghijklmnopqrstuvwxyz0123456789!@#$%^&*" in
   let password := js "" in
   (* Ensure at least one of each type *)
   i <~ random_index 26 ;;
   let password := js_append password (js_index upper_chars i) in
   i <~ random_index 26 ;;
   let password := js_append password (js_index lower_chars i) in
   i <~ random_index 10 ;;
   let password := js_append password (js_index digit_chars i) in
   i <~ random_index 8 ;;
   let password := js_append password (js_index symbol_chars i) in
   (* Fill remaining length *)
   password <~ fill chars 4 16 password ;;
   (* Shuffle password *)
   sort_random password)%rand.

(** A call of the function.  It declares no parameter: the arguments
    of a call that passes some are not read. *)
Definition generatePassword_call (arguments : list Z) : rand jsstr :=
  generatePassword.
End Browser.

(** The routes that the module registers with [@app.route]: the rule
    and the methods it answers ([GET] where the decorator names none). *)
Definition app_routes : list (string * list string) :=
  [ ("/", ["GET"]); ("/analyze", ["POST"]) ]%string.

(** An engine for running the generator on an example: every draw is 0
    and the sort leaves the array as it is. *)
Definition zero_draws : nat -> Q := fun _ => 0%Q.
Definition sort_keep : jsstr -> rand jsstr := fun l => ret l.

(** ** The score in quarters of a point *)

Definition result_Z_eqb (x y : result Z) : bool :=
  match x, y with
  | Ok u, Ok v => u =? v
  | _, _ => false
  end.

(** The float [k / 4]. *)
Definition quarters (k : Z) : float :=
  binary_normalize prec emax k (-2) false.

Definition length_points (n : Z) : Z :=
  if 12 <=? n then 25
  else if 8 <=? n then 15
  else if 6 <=? n then 10
  else if 4 <=? n then 5
  else 0.

Definition entropy_points (e : pynum) : Z :=
  if py_ge e (PInt 60) then 20
  else if py_ge e (PInt 40) then 15
  else if py_ge e (PInt 25) then 10
  else if py_ge e (PInt 15) then 5
  else 0.

(** The specification's sum, in quarters of a point. *)
Definition quarter_points (a : Analysis) : Z :=
  let ca := character_analysis a in
  let sc := security_checks a in
  let pa := pattern_analysis a in
  4 * length_points (pw_length a)
  + 25 * (Z.b2z (has_lowercase ca) + Z.b2z (has_uppercase ca)
          + Z.b2z (has_digits ca) + Z.b2z (has_special ca))
  + 4 * entropy_points (entropy a)
  + 40 * Z.b2z (negb (is_common sc)) + 40 * Z.b2z (negb (pwned_check sc))
  + 40 * Z.b2z (all_met (meets_basic_requirements sc))
  - 20 * Z.b2z (truthy (repeated_chars pa))
  - 40 * Z.b2z (truthy (sequential pa))
  - 40 * Z.b2z (truthy (keyboard_patterns pa))
  - 60 * Z.b2z (truthy (dictionary_words pa)).

(** The integers [lo, lo + 1, ..., lo + n - 1]. *)
Definition Zrange (lo : Z) (n : nat) : list Z :=
  map (fun i => lo + Z.of_nat i) (seq 0 n).

Definition float_eqb (x y : float) : bool :=
  match x, y with
  | S754_zero s, S754_zero s' => Bool.eqb s s'
  | S754_infinity s, S754_infinity s' => Bool.eqb s s'
  | S754_nan, S754_nan => true
  | S754_finite s m e, S754_finite s' m' e' =>
      Bool.eqb s s' && (m =? m')%positive && (e =? e')
  | _, _ => false
  end.

Definition pynum_eqb (x y : pynum) : bool :=
  match x, y with
  | PInt a, PInt b => a =? b
  | PFloat f, PFloat g => float_eqb f g
  | _, _ => false
  end.

(** The running total of the score stays between -160 and 400 quarters. *)
Definition total_range : list Z := Zrange (-160) 561.

Definition adds_exactly (k : Z) : bool :=
  forallb (fun n => pynum_eqb (py_add (PFloat (quarters k)) (PInt n))
                      (PFloat (quarters (k + 4 * n))))
    [5; 10; 15; 20; 25]
  && forallb (fun n => pynum_eqb (py_sub (PFloat (quarters k)) (PInt n))
                         (PFloat (quarters (k - 4 * n))))
       [5; 10; 15].

Definition rounds_exactly (k : Z) : bool :=
  result_Z_eqb (py_round (PFloat (quarters k)))
    (Ok (round_half_even (k # 4))).

Definition starts_exactly (l : Z) : bool :=
  forallb (fun c => pynum_eqb
                      (py_add (PInt l)
                         (py_mul (PInt c) (PFloat (float_lit 625 2))))
                      (PFloat (quarters (4 * l + 25 * c))))
    [0; 1; 2; 3; 4].

(** ** Inputs of the examples *)

(** 205 exclamation marks: a password of the special class only. *)
Definition long_special_password : str := repeat 33 205%nat.

(** Two reports that differ in the substitution hints and in the
    personal-info flag only. *)
Definition sample_report (hints : list str) (personal : bool) : Analysis :=
  {| password := py "p4ss";
     pw_length := 4;
     strength_score := 0;
     strength_level := py "Very Weak";
     character_analysis := _analyze_characters (py "p4ss");
     pattern_analysis :=
       {| repeated_chars := [115]; sequential := [];
          keyboard_patterns := []; common_substitutions := hints;
          dictionary_words := [] |};
     security_checks :=
       {| is_common := false; contains_personal_info := personal;
          pwned_check := false;
          meets_basic_requirements := _meets_basic_requirements (py "p4ss") |};
     entropy := PInt 0;
     crack_time := py "Instant";
     recommendations := [] |}.


(** ** More of the specification's side *)

(** An exponent at which [2 ** e] raises. *)
Definition overflows (e : pynum) : bool :=
  match e with
  | PFloat (S754_finite s m x) =>
      SFleb (float_of_int 1024) (S754_finite s m x)
  | _ => false
  end.

(** One advisory, given under a condition. *)
Definition advice (c : bool) (m : string) : list str :=
  if c then [py m] else [].

Definition excellent : str :=
  py "Excellent password! Consider changing it regularly.".

(** The advisories of a report, before the list is checked for being
    empty. *)
Definition advisories (a : Analysis) : list str :=
  (if pw_length a <? 8 then [py "Use at least 8 characters"]
   else if pw_length a <? 12
   then [py "Consider using 12+ characters for better security"]
   else [])
  ++ advice (negb (has_uppercase (character_analysis a)))
       "Add uppercase letters"
  ++ advice (negb (has_lowercase (character_analysis a)))
       "Add lowercase letters"
  ++ advice (negb (has_digits (character_analysis a))) "Add numbers"
  ++ advice (negb (has_special (character_analysis a)))
       "Add special characters (!@#$%^&*)"
  ++ advice (is_common (security_checks a)) "Avoid common passwords"
  ++ advice (truthy (repeated_chars (pattern_analysis a)))
       "Avoid repeated characters"
  ++ advice (truthy (sequential (pattern_analysis a)))
       "Avoid sequential patterns (abc, 123)"
  ++ advice (truthy (keyboard_patterns (pattern_analysis a)))
       "Avoid keyboard patterns (qwerty, asdf)"
  ++ advice (truthy (dictionary_words (pattern_analysis a)))
       "Avoid dictionary words".

(** A report that gives no reason for an advisory. *)
Definition nothing_to_improve (a : Analysis) : bool :=
  (12 <=? pw_length a)
  && has_uppercase (character_analysis a)
  && has_lowercase (character_analysis a)
  && has_digits (character_analysis a)
  && has_special (character_analysis a)
  && negb (is_common (security_checks a))
  && negb (truthy (repeated_chars (pattern_analysis a)))
  && negb (truthy (sequential (pattern_analysis a)))
  && negb (truthy (keyboard_patterns (pattern_analysis a)))
  && negb (truthy (dictionary_words (pattern_analysis a))).

(** [a] has a finding of every kind of which [b] has one, and the two
    reports agree on what else the score reads. *)
Definition no_fewer_findings (a b : Analysis) : Prop :=
  pw_length a = pw_length b
  /\ character_analysis a = character_analysis b
  /\ entropy a = entropy b
  /\ security_checks a = security_checks b
  /\ (truthy (repeated_chars (pattern_analysis b)) = true ->
      truthy (repeated_chars (pattern_analysis a)) = true)
  /\ (truthy (sequential (pattern_analysis b)) = true ->
      truthy (sequential (pattern_analysis a)) = true)
  /\ (truthy (keyboard_patterns (pattern_analysis b)) = true ->
      truthy (keyboard_patterns (pattern_analysis a)) = true)
  /\ (truthy (dictionary_words (pattern_analysis b)) = true ->
      truthy (dictionary_words (pattern_analysis a)) = true).

(** The report of the examples with other pattern findings. *)
Definition sample_report_with (pa : PatternAnalysis) : Analysis :=
  {| password := py "p4ss";
     pw_length := 4;
     strength_score := 0;
     strength_level := py "Very Weak";
     character_analysis := _analyze_characters (py "p4ss");
     pattern_analysis := pa;
     security_checks :=
       {| is_common := false; contains_personal_info := false;
          pwned_check := false;
          meets_basic_requirements := _meets_basic_requirements (py "p4ss") |};
     entropy := PInt 0;
     crack_time := py "Instant";
     recommendations := [] |}.

Definition rounds_monotonically (k : Z) : bool :=
  round_half_even (k # 4) <=? round_half_even ((k + 1) # 4).

(** A platform for running the examples: [log2] and [pow] of the whole
    part of their argument only, and no lower-casing outside ASCII. *)
Definition whole_part (x : float) : Z :=
  match x with
  | S754_finite false m e =>
      if 0 <=? e then Zpos m * 2 ^ e else Zpos m / 2 ^ (- e)
  | _ => 0
  end.

Definition example_platform : platform :=
  {| libm_log2 := fun x => float_of_int (Z.log2 (whole_part x));
     libm_pow := fun x y => float_of_int (whole_part x ^ whole_part y);
     unicode_lower := fun s => s |}.

(** [log2] of the charset sizes that are not powers of two, as the C
    library of CPython 3.11 on x86-64 Linux returns it, and a platform
    with these values. *)
Definition charset_log2 : list (Z * float) :=
  [ (10, float_lit 3321928094887362 15);
    (26, float_lit 4700439718141092 15);
    (36, float_lit 5169925001442312 15);
    (42, float_lit 5392317422778761 15);
    (52, float_lit 5700439718141092 15);
    (58, float_lit 5857980995127572 15);
    (62, float_lit 5954196310386875 15);
    (68, float_lit 6087462841250339 15);
    (84, float_lit 6392317422778761 15);
    (94, float_lit 6554588851677638 15) ].

Definition table_log2 (x : float) : float :=
  match find (fun kv => float_eqb x (float_of_int (fst kv))) charset_log2 with
  | Some kv => snd kv
  | None => S754_nan
  end.

Definition reference_platform : platform :=
  {| libm_log2 := table_log2;
     libm_pow := fun x y => float_of_int (whole_part x ^ whole_part y);
     unicode_lower := fun s => s |}.

Definition plain_and_short (w : str) : bool :=
  negb (existsb re_special w) && (len w <=? 11).

(** The annotation of an entry of the substitution table. *)
Definition annotation (kv : Z * Z) : str :=
  [fst kv] ++ [32; 8218; 220; 237; 32] ++ [snd kv].

(** The word list and the keyboard rows of the pattern finders, and the
    windows of three keys of a row. *)
Definition dictionary : list str :=
  map py [ "password"; "admin"; "user"; "login"; "welcome";
           "hello"; "world"; "test"; "demo"; "sample" ]%string.

Definition keyboard_rows : list str :=
  map py ["qwertyuiop"; "asdfghjkl"; "zxcvbnm"; "1234567890"]%string.

Definition row_windows (row : str) : list str :=
  map (fun i => slice row i (i + 3)) (py_range (len row - 2)).

(** ** The [/analyze] route *)

Definition set_password (a : Analysis) (v : str) : Analysis :=
  {| password := v; pw_length := pw_length a;
     strength_score := strength_score a; strength_level := strength_level a;
     character_analysis := character_analysis a;
     pattern_analysis := pattern_analysis a;
     security_checks := security_checks a; entropy := entropy a;
     crack_time := crack_time a; recommendations := recommendations a |}.

(** What the route answers: the report as JSON, the error object with
    status 400, or the status 500 that the framework makes of an
    exception the handler does not catch. *)
Inductive response :=
| Json200 (analysis : Analysis)
| Json400 (error : str)
| Error500 (e : exn).

Section Route.
Context `{platform}.

(** The module-level [analyze_password] of the route [/analyze].  The
    JSON body is an object whose members are strings: [data] gives the
    member of a name, if there is one. *)
Definition analyze_password_route (data : str -> option str) : response :=
  let password :=
    match data (py "password") with
    | Some v => v
    | None => py ""
    end in
  if negb (truthy password) then Json400 (py "Password is required")
  else
    match analyze_password analyzer password with
    | Raise e => Error500 e
    | Ok analysis =>
        (* Remove the actual password from response for security *)
        Json200 (set_password analysis
                   (repeat 42 (List.length password)))
    end.
End Route.

(** ** From the page to the server *)

(** The page posts the generated password to [/analyze]; the server
    reads each character as its code point. *)
Definition code (a : ascii) : Z := Z.of_N (N_of_ascii a).

Definition str_of_js (s : jsstr) : str := map code s.

Definition generator_alphabet : jsstr :=
  js "ABCDEFGHIJKLMNOPQRSTUVWXYZabcdefghijklmnopqrstuvwxyz0123456789!@#$%^&*".

(** The month and day names of [_contains_personal_info]. *)
Definition month_names : list string :=
  [ "jan"; "feb"; "mar"; "apr"; "may"; "jun"; "jul"; "aug";
    "sep"; "oct"; "nov"; "dec" ]%string.

Definition day_names : list string :=
  [ "monday"; "tuesday"; "wednesday"; "thursday"; "friday";
    "saturday"; "sunday" ]%string.

Definition personal_words : list string := month_names ++ day_names.

(** * Properties *)

(** ** Loops that collect *)

Lemma for_in_collect {A B} (c : A -> bool) (f : A -> B) (l : list A)
    (acc : list B) :
  for_in l (fun x acc => if c x then acc ++ [f x] else acc) acc
  = acc ++ map f (filter c l).
Proof.
  unfold for_in. revert acc.
  induction l as [|x l IH]; intros acc; simpl.
  - now rewrite app_nil_r.
  - rewrite IH. destruct (c x); simpl; [|reflexivity].
    now rewrite <- app_assoc.
Qed.

Lemma len_findall (cls : Z -> bool) (s : str) :
  len (re_findall cls s) = len (filter cls s).
Proof. unfold len, re_findall. now rewrite length_map. Qed.

Lemma search_iff_found (cls : Z -> bool) (s : str) :
  re_search cls s = (0 <? len (re_findall cls s)).
Proof.
  rewrite len_findall. unfold re_search, len.
  induction s as [|c s IH]; simpl; [reflexivity|].
  destruct (cls c); simpl; [|exact IH].
  symmetry. apply Z.ltb_lt. lia.
Qed.

(** ** The character analyzer *)

(** An ASCII digit is a decimal digit, and a letter is not one. *)
Lemma ascii_digit_is_digit (c : Z) :
  in_range 48 57 c = true -> re_digit c = true.
Proof.
  unfold in_range, re_digit. intros Hc.
  apply andb_true_iff in Hc as [Hlo Hhi].
  apply Z.leb_le in Hlo. apply Z.leb_le in Hhi.
  simpl. apply orb_true_iff. left.
  apply andb_true_iff. split; [apply Z.leb_le | apply Z.ltb_lt]; lia.
Qed.

(** The four classes split a string whose decimal digits are all ASCII:
    there the four counts add up to the length. *)
Lemma counts_sum_ascii_digits (p : str) :
  (forall c, In c p -> re_digit c = true -> in_range 48 57 c = true) ->
  let r := _analyze_characters p in
  lowercase r + uppercase r + digits r + special r = len p.
Proof.
  intros Hd. simpl. rewrite !len_findall. unfold len.
  induction p as [|c p IH]; [reflexivity|].
  assert (IH' := IH (fun x Hx => Hd x (or_intror Hx))).
  assert (Hc := Hd c (or_introl eq_refl)).
  assert (Hc' := ascii_digit_is_digit c).
  cbn [filter].
  unfold re_lower, re_upper, re_special, in_range in *.
  destruct (re_digit c);
    destruct (97 <=? c) eqn:E1; destruct (c <=? 122) eqn:E2;
    destruct (65 <=? c) eqn:E3; destruct (c <=? 90) eqn:E4;
    destruct (48 <=? c) eqn:E5; destruct (c <=? 57) eqn:E6;
    cbn [andb orb negb] in *;
    try (specialize (Hc eq_refl)); try (specialize (Hc' eq_refl));
    try discriminate;
    repeat match goal with
           | E : (_ <=? _) = true |- _ => apply Z.leb_le in E
           | E : (_ <=? _) = false |- _ => apply Z.leb_gt in E
           end;
    cbn [List.length]; lia.
Qed.

(** C3, at the input where the code leaves the claim: the Arabic-Indic
    digit three (U+0663) is matched by [\d] and by [[^a-zA-Z0-9]], so the
    one-character password is counted once as a digit and once as
    special, and the four counts add up to 2, not to its length 1. *)
Theorem analyze_characters_counts_digit_twice :
  let r := _analyze_characters [1635] in
  digits r = 1 /\ special r = 1
  /\ lowercase r + uppercase r + digits r + special r = 2
  /\ len [1635] = 1.
Proof. vm_compute. repeat split. Qed.

(** ** Sequential runs *)

Lemma find_sequential_filter (p : str) :
  _find_sequential_patterns p
  = map (window p)
      (filter (fun i => (item p (i + 1) =? item p i + 1)
                        && (item p (i + 2) =? item p i + 2))
         (py_range (len p - 2))).
Proof. unfold _find_sequential_patterns. now rewrite for_in_collect. Qed.

Lemma window_in_range (p : str) (i : nat) :
  (i + 2 < List.length p)%nat ->
  window p i = [item p i; item p (i + 1); item p (i + 2)].
Proof.
  unfold window, slice, item. revert i.
  induction p as [|c p IH]; intros i Hi; simpl in Hi; [lia|].
  destruct i as [|i].
  - destruct p as [|c1 [|c2 p]]; simpl in *; try lia. reflexivity.
  - replace (S i + 3 - S i)%nat with 3%nat by lia.
    specialize (IH i ltac:(lia)).
    replace (i + 3 - i)%nat with 3%nat in IH by lia.
    simpl. exact IH.
Qed.

Lemma window_out_of_range (p : str) (i : nat) :
  (List.length p <= i + 2)%nat -> (List.length (window p i) < 3)%nat.
Proof.
  unfold window, slice. intros Hi.
  rewrite length_firstn, length_skipn. lia.
Qed.

Lemma ascending_run_length (w : str) :
  ascending_run w = true -> List.length w = 3%nat.
Proof.
  destruct w as [|a [|b [|c [|d w]]]]; simpl; try discriminate. reflexivity.
Qed.

Lemma ascending_window (p : str) (i : nat) :
  (i + 2 < List.length p)%nat ->
  ascending_run (window p i)
  = (item p (i + 1) =? item p i + 1) && (item p (i + 2) =? item p i + 2).
Proof. intros Hi. now rewrite window_in_range. Qed.

Lemma in_py_range (n : Z) (i : nat) :
  In i (py_range n) <-> Z.of_nat i < n.
Proof. unfold py_range. rewrite in_seq. lia. Qed.

Lemma found_sequential_iff (p : str) (w : str) :
  In w (_find_sequential_patterns p)
  <-> exists i, (i + 2 < List.length p)%nat /\ window p i = w
                /\ ascending_run w = true.
Proof.
  rewrite find_sequential_filter, in_map_iff. split.
  - intros (i & Hw & Hi). apply filter_In in Hi as [Hr Hc].
    apply in_py_range in Hr. unfold len in Hr.
    exists i. assert (Hlt : (i + 2 < List.length p)%nat) by lia.
    repeat split; try assumption.
    subst w. now rewrite ascending_window.
  - intros (i & Hlt & Hw & Ha). exists i. split; [assumption|].
    apply filter_In. split.
    + apply in_py_range. unfold len. lia.
    + subst w. now rewrite ascending_window in Ha.
Qed.

Lemma ascending_not_descending (w : str) :
  ascending_run w = true -> descending_run w = false.
Proof.
  destruct w as [|a [|b [|c [|d w]]]]; simpl; try discriminate.
  intros Ha. apply andb_true_iff in Ha as [Hb Hc].
  apply Z.eqb_eq in Hb. apply andb_false_iff. left. apply Z.eqb_neq. lia.
Qed.

(** C7: the sequential findings are the windows of three characters, in
    order of their start, one for each start whose window goes up in
    steps of one; so the window at any index is a finding exactly when it
    is such a run, overlapping windows each on their own; a finding is
    never a descending run; and "abcXYZ123" gives "abc" and "123" (and
    "XYZ"), while "cba" gives nothing. *)
Theorem sequential_findings_are_ascending_windows (p : str) :
  _find_sequential_patterns p
  = map (window p)
      (filter (fun i => ascending_run (window p i))
         (seq 0 (List.length p - 2)))
  /\ (forall i, In (window p i) (_find_sequential_patterns p)
                <-> ascending_run (window p i) = true)
  /\ forallb (fun w => negb (descending_run w)) (_find_sequential_patterns p)
     = true
  /\ _find_sequential_patterns (py "abcd") = [py "abc"; py "bcd"]
  /\ _find_sequential_patterns (py "abcXYZ123")
     = [py "abc"; py "XYZ"; py "123"]
  /\ _find_sequential_patterns (py "cba") = [].
Proof.
  split; [|split; [|split]].
  - rewrite find_sequential_filter. f_equal.
    unfold py_range, len.
    replace (Z.to_nat (Z.of_nat (List.length p) - 2))
      with (List.length p - 2)%nat by lia.
    apply filter_ext_in. intros i Hi. apply in_seq in Hi.
    symmetry. apply ascending_window. lia.
  - intros i. rewrite found_sequential_iff. split.
    + intros (j & _ & _ & Ha). exact Ha.
    + intros Ha. exists i. repeat split; try assumption.
      destruct (Nat.lt_ge_cases (i + 2) (List.length p)) as [Hlt|Hge];
        [assumption|].
      apply window_out_of_range in Hge.
      apply ascending_run_length in Ha. lia.
  - apply forallb_forall. intros w Hw.
    apply found_sequential_iff in Hw as (i & _ & _ & Ha).
    now rewrite (ascending_not_descending w Ha).
  - vm_compute. repeat split.
Qed.

(** ** The score *)

Lemma in_Zrange (lo : Z) (n : nat) (k : Z) :
  lo <= k < lo + Z.of_nat n -> In k (Zrange lo n).
Proof.
  intros Hk. unfold Zrange. apply in_map_iff.
  exists (Z.to_nat (k - lo)). split; [lia|]. apply in_seq. lia.
Qed.

Lemma float_eqb_eq (x y : float) : float_eqb x y = true -> x = y.
Proof.
  destruct x as [s| s| |s m e], y as [s'| s'| |s' m' e']; simpl;
    try discriminate; try reflexivity.
  - intros Hs. apply eqb_prop in Hs. now subst.
  - intros Hs. apply eqb_prop in Hs. now subst.
  - intros Hs. apply andb_true_iff in Hs as [Hs He].
    apply andb_true_iff in Hs as [Hs Hm].
    apply eqb_prop in Hs. apply Pos.eqb_eq in Hm. apply Z.eqb_eq in He.
    now subst.
Qed.

Lemma pynum_eqb_eq (x y : pynum) : pynum_eqb x y = true -> x = y.
Proof.
  destruct x as [a|f], y as [b|g]; simpl; try discriminate.
  - intros Hab. apply Z.eqb_eq in Hab. now subst.
  - intros Hfg. apply float_eqb_eq in Hfg. now subst.
Qed.

Lemma result_Z_eqb_eq (x y : result Z) :
  result_Z_eqb x y = true -> x = y.
Proof.
  destruct x as [u|e], y as [v|e']; simpl; try discriminate.
  intros Huv. apply Z.eqb_eq in Huv. now subst.
Qed.

(** Float addition, subtraction and rounding are exact on the running
    total: it is a small multiple of a quarter. *)
Lemma total_range_adds_exactly : forallb adds_exactly total_range = true.
Proof. vm_compute. reflexivity. Qed.

Lemma total_range_rounds_exactly :
  forallb rounds_exactly total_range = true.
Proof. vm_compute. reflexivity. Qed.

Lemma length_bands_start_exactly :
  forallb starts_exactly [0; 5; 10; 15; 25] = true.
Proof. vm_compute. reflexivity. Qed.

Lemma add_quarters (k n : Z) :
  -160 <= k <= 400 -> In n [5; 10; 15; 20; 25] ->
  py_add (PFloat (quarters k)) (PInt n) = PFloat (quarters (k + 4 * n)).
Proof.
  intros Hk Hn. apply pynum_eqb_eq.
  assert (Hok : adds_exactly k = true).
  { apply (proj1 (forallb_forall _ _) total_range_adds_exactly).
    apply in_Zrange. lia. }
  apply andb_true_iff in Hok as [Hadd _].
  exact (proj1 (forallb_forall _ _) Hadd n Hn).
Qed.

Lemma sub_quarters (k n : Z) :
  -160 <= k <= 400 -> In n [5; 10; 15] ->
  py_sub (PFloat (quarters k)) (PInt n) = PFloat (quarters (k - 4 * n)).
Proof.
  intros Hk Hn. apply pynum_eqb_eq.
  assert (Hok : adds_exactly k = true).
  { apply (proj1 (forallb_forall _ _) total_range_adds_exactly).
    apply in_Zrange. lia. }
  apply andb_true_iff in Hok as [_ Hsub].
  exact (proj1 (forallb_forall _ _) Hsub n Hn).
Qed.

Lemma round_quarters (k : Z) :
  -160 <= k <= 400 ->
  py_round (PFloat (quarters k)) = Ok (round_half_even (k # 4)).
Proof.
  intros Hk. apply result_Z_eqb_eq.
  apply (proj1 (forallb_forall _ _) total_range_rounds_exactly).
  apply in_Zrange. lia.
Qed.

Lemma start_quarters (l c : Z) :
  In l [0; 5; 10; 15; 25] -> 0 <= c <= 4 ->
  py_add (PInt l) (py_mul (PInt c) (PFloat (float_lit 625 2)))
  = PFloat (quarters (4 * l + 25 * c)).
Proof.
  intros Hl Hc. apply pynum_eqb_eq.
  assert (Hok := proj1 (forallb_forall _ _) length_bands_start_exactly l Hl).
  apply (proj1 (forallb_forall _ _) Hok c).
  assert (Hc' : c = 0 \/ c = 1 \/ c = 2 \/ c = 3 \/ c = 4) by lia.
  simpl. intuition.
Qed.

(** A bonus or a penalty that applies under a condition. *)
Lemma bonus_quarters (b : bool) (k n : Z) :
  -160 <= k <= 400 -> In n [5; 10; 15; 20; 25] ->
  (if b then py_add (PFloat (quarters k)) (PInt n) else PFloat (quarters k))
  = PFloat (quarters (k + 4 * n * Z.b2z b)).
Proof.
  intros Hk Hn. destruct b; cbn [Z.b2z].
  - rewrite add_quarters by assumption. f_equal. f_equal. lia.
  - f_equal. f_equal. lia.
Qed.

Lemma penalty_quarters (b : bool) (k n : Z) :
  -160 <= k <= 400 -> In n [5; 10; 15] ->
  (if b then py_sub (PFloat (quarters k)) (PInt n) else PFloat (quarters k))
  = PFloat (quarters (k - 4 * n * Z.b2z b)).
Proof.
  intros Hk Hn. destruct b; cbn [Z.b2z].
  - rewrite sub_quarters by assumption. f_equal. f_equal. lia.
  - f_equal. f_equal. lia.
Qed.

Lemma b2z_bounds (b : bool) : 0 <= Z.b2z b <= 1.
Proof. destruct b; simpl; lia. Qed.

Lemma length_points_band (n : Z) :
  In (length_points n) [0; 5; 10; 15; 25].
Proof.
  unfold length_points.
  destruct (12 <=? n), (8 <=? n), (6 <=? n), (4 <=? n); simpl; auto 6.
Qed.

Lemma entropy_points_band (e : pynum) :
  In (entropy_points e) [0; 5; 10; 15; 20].
Proof.
  unfold entropy_points.
  destruct (py_ge e (PInt 60)), (py_ge e (PInt 40)), (py_ge e (PInt 25)),
    (py_ge e (PInt 15)); simpl; auto 6.
Qed.

Lemma length_points_range (n : Z) : 0 <= length_points n <= 25.
Proof.
  destruct (length_points_band n) as [E|[E|[E|[E|[E|[]]]]]]; lia.
Qed.

Lemma entropy_points_range (e : pynum) : 0 <= entropy_points e <= 20.
Proof.
  destruct (entropy_points_band e) as [E|[E|[E|[E|[E|[]]]]]]; lia.
Qed.

Lemma length_band_start (n : Z) :
  (if 12 <=? n then py_add (PInt 0) (PInt 25)
   else if 8 <=? n then py_add (PInt 0) (PInt 15)
   else if 6 <=? n then py_add (PInt 0) (PInt 10)
   else if 4 <=? n then py_add (PInt 0) (PInt 5)
   else PInt 0)
  = PInt (length_points n).
Proof.
  unfold length_points.
  destruct (12 <=? n), (8 <=? n), (6 <=? n), (4 <=? n); reflexivity.
Qed.

Lemma entropy_band_quarters (e : pynum) (k : Z) :
  -160 <= k <= 400 ->
  (if py_ge e (PInt 60) then py_add (PFloat (quarters k)) (PInt 20)
   else if py_ge e (PInt 40) then py_add (PFloat (quarters k)) (PInt 15)
   else if py_ge e (PInt 25) then py_add (PFloat (quarters k)) (PInt 10)
   else if py_ge e (PInt 15) then py_add (PFloat (quarters k)) (PInt 5)
   else PFloat (quarters k))
  = PFloat (quarters (k + 4 * entropy_points e)).
Proof.
  intros Hk. unfold entropy_points.
  destruct (py_ge e (PInt 60));
    [|destruct (py_ge e (PInt 40));
      [|destruct (py_ge e (PInt 25)); [|destruct (py_ge e (PInt 15))]]];
    try (rewrite add_quarters by (try assumption; simpl; auto 6));
    f_equal; f_equal; lia.
Qed.

(** The running total of the code, step by step, is the specification's
    sum in quarters. *)
Lemma calculate_strength_score_quarters (a : Analysis) :
  _calculate_strength_score a
  = (r <- py_round (PFloat (quarters (quarter_points a))) ;;
     Ok (Z.max 0 (Z.min 100 r)))%result.
Proof.
  unfold _calculate_strength_score, quarter_points. cbv zeta.
  assert (Hl := length_points_range (pw_length a)).
  assert (He := entropy_points_range (entropy a)).
  assert (H1 := b2z_bounds (has_lowercase (character_analysis a))).
  assert (H2 := b2z_bounds (has_uppercase (character_analysis a))).
  assert (H3 := b2z_bounds (has_digits (character_analysis a))).
  assert (H4 := b2z_bounds (has_special (character_analysis a))).
  assert (H5 := b2z_bounds (negb (is_common (security_checks a)))).
  assert (H6 := b2z_bounds (negb (pwned_check (security_checks a)))).
  assert (H7 := b2z_bounds
                  (all_met (meets_basic_requirements (security_checks a)))).
  assert (H8 := b2z_bounds (truthy (repeated_chars (pattern_analysis a)))).
  assert (H9 := b2z_bounds (truthy (sequential (pattern_analysis a)))).
  assert (H10 := b2z_bounds
                   (truthy (keyboard_patterns (pattern_analysis a)))).
  assert (H11 := b2z_bounds
                   (truthy (dictionary_words (pattern_analysis a)))).
  rewrite length_band_start.
  rewrite start_quarters by (apply length_points_band || lia).
  rewrite entropy_band_quarters by lia.
  rewrite !bonus_quarters by (lia || (simpl; auto 6)).
  rewrite !penalty_quarters by (lia || (simpl; auto 6)).
  f_equal.
Qed.

Lemma quarter_points_range (a : Analysis) :
  -160 <= quarter_points a <= 400.
Proof.
  unfold quarter_points. cbv zeta.
  assert (Hl := length_points_range (pw_length a)).
  assert (He := entropy_points_range (entropy a)).
  assert (H1 := b2z_bounds (has_lowercase (character_analysis a))).
  assert (H2 := b2z_bounds (has_uppercase (character_analysis a))).
  assert (H3 := b2z_bounds (has_digits (character_analysis a))).
  assert (H4 := b2z_bounds (has_special (character_analysis a))).
  assert (H5 := b2z_bounds (negb (is_common (security_checks a)))).
  assert (H6 := b2z_bounds (negb (pwned_check (security_checks a)))).
  assert (H7 := b2z_bounds
                  (all_met (meets_basic_requirements (security_checks a)))).
  assert (H8 := b2z_bounds (truthy (repeated_chars (pattern_analysis a)))).
  assert (H9 := b2z_bounds (truthy (sequential (pattern_analysis a)))).
  assert (H10 := b2z_bounds
                   (truthy (keyboard_patterns (pattern_analysis a)))).
  assert (H11 := b2z_bounds
                   (truthy (dictionary_words (pattern_analysis a)))).
  lia.
Qed.

Lemma points_b2z (b : bool) (q : Q) :
  (points b q == inject_Z (Z.b2z b) * q)%Q.
Proof. destruct b; simpl; ring. Qed.

Lemma spec_length_points_Z (n : Z) :
  spec_length_points n = inject_Z (length_points n).
Proof.
  unfold spec_length_points, length_points.
  destruct (12 <=? n), (8 <=? n), (6 <=? n), (4 <=? n); reflexivity.
Qed.

Lemma spec_entropy_points_Z (e : pynum) :
  spec_entropy_points e = inject_Z (entropy_points e).
Proof.
  unfold spec_entropy_points, entropy_points.
  destruct (py_ge e (PInt 60)), (py_ge e (PInt 40)), (py_ge e (PInt 25)),
    (py_ge e (PInt 15)); reflexivity.
Qed.

(** The specification's sum is a whole number of quarters. *)
Lemma spec_points_quarters (a : Analysis) :
  (spec_points a == quarter_points a # 4)%Q.
Proof.
  unfold spec_points, quarter_points. cbv zeta.
  rewrite spec_length_points_Z, spec_entropy_points_Z, !points_b2z.
  generalize (length_points (pw_length a)), (entropy_points (entropy a)),
    (Z.b2z (has_lowercase (character_analysis a))),
    (Z.b2z (has_uppercase (character_analysis a))),
    (Z.b2z (has_digits (character_analysis a))),
    (Z.b2z (has_special (character_analysis a))),
    (Z.b2z (negb (is_common (security_checks a)))),
    (Z.b2z (negb (pwned_check (security_checks a)))),
    (Z.b2z (all_met (meets_basic_requirements (security_checks a)))),
    (Z.b2z (truthy (repeated_chars (pattern_analysis a)))),
    (Z.b2z (truthy (sequential (pattern_analysis a)))),
    (Z.b2z (truthy (keyboard_patterns (pattern_analysis a)))),
    (Z.b2z (truthy (dictionary_words (pattern_analysis a)))).
  intros l e x1 x2 x3 x4 x5 x6 x7 x8 x9 x10 x11.
  match goal with
  | |- (_ == ?k # 4)%Q => rewrite (Qmake_Qdiv k 4)
  end.
  unfold Z.sub.
  repeat (rewrite inject_Z_plus || rewrite inject_Z_opp
          || rewrite inject_Z_mult).
  change (inject_Z 4) with 4%Q. change (inject_Z 25) with 25%Q.
  change (inject_Z 40) with 40%Q. change (inject_Z 20) with 20%Q.
  change (inject_Z 60) with 60%Q.
  field.
Qed.

Lemma round_half_even_comp (q q' : Q) :
  (q == q')%Q -> round_half_even q = round_half_even q'.
Proof.
  intros Hq. unfold round_half_even.
  rewrite <- (Qfloor_comp _ _ Hq).
  assert (Hc : ((q - inject_Z (Qfloor q)) ?= (1 # 2))%Q
               = ((q' - inject_Z (Qfloor q)) ?= (1 # 2))%Q)
    by (apply Qcompare_comp;
        [unfold Qminus; apply Qplus_comp; [exact Hq | apply Qeq_refl]
        | apply Qeq_refl]).
  now rewrite Hc.
Qed.

(** The code's score is the specification's. *)
Lemma calculate_strength_score_spec (a : Analysis) :
  _calculate_strength_score a = Ok (spec_score a).
Proof.
  rewrite calculate_strength_score_quarters.
  rewrite round_quarters by apply quarter_points_range.
  unfold spec_score, clamp.
  now rewrite (round_half_even_comp _ _ (spec_points_quarters a)).
Qed.

Lemma Ok_inj {A} (x y : A) : Ok x = Ok y -> x = y.
Proof. intros Hxy. now injection Hxy. Qed.

Lemma bind_Ok {A B} (c : result A) (k : A -> result B) (b : B) :
  bind c k = Ok b -> exists a, c = Ok a /\ k a = Ok b.
Proof. destruct c as [a|e]; simpl; [eauto | discriminate]. Qed.

(** The specification's score reads five fields of the report only. *)
Lemma spec_score_ext (a b : Analysis) :
  pw_length a = pw_length b ->
  character_analysis a = character_analysis b ->
  entropy a = entropy b ->
  security_checks a = security_checks b ->
  pattern_analysis a = pattern_analysis b ->
  spec_score a = spec_score b.
Proof.
  intros H1 H2 H3 H4 H5. unfold spec_score, spec_points.
  now rewrite H1, H2, H3, H4, H5.
Qed.

Lemma spec_score_range (a : Analysis) : 0 <= spec_score a <= 100.
Proof. unfold spec_score, clamp. lia. Qed.

Lemma get_strength_level_spec (score : Z) :
  _get_strength_level score = py (spec_level score).
Proof.
  unfold _get_strength_level, spec_level.
  repeat match goal with
         | |- context [if ?b then _ else _] => destruct b
         end; reflexivity.
Qed.

(** The bands of the level, one by one. *)
Lemma spec_level_bands (score : Z) :
  (80 <= score -> spec_level score = "Very Strong"%string)
  /\ (60 <= score < 80 -> spec_level score = "Strong"%string)
  /\ (40 <= score < 60 -> spec_level score = "Moderate"%string)
  /\ (20 <= score < 40 -> spec_level score = "Weak"%string)
  /\ (score < 20 -> spec_level score = "Very Weak"%string).
Proof.
  unfold spec_level.
  destruct (80 <=? score) eqn:E80; destruct (60 <=? score) eqn:E60;
    destruct (40 <=? score) eqn:E40; destruct (20 <=? score) eqn:E20;
    repeat match goal with
           | E : (_ <=? _) = true |- _ => apply Z.leb_le in E
           | E : (_ <=? _) = false |- _ => apply Z.leb_gt in E
           end;
    repeat split; intros; try reflexivity; lia.
Qed.

Section Evaluation.
Context `{platform}.
Variable self : PasswordAnalyzer.

(** What a report that [analyze_password] returns holds. *)
Lemma analyze_password_returns (p : str) (r : Analysis) :
  analyze_password self p = Ok r ->
  exists e t,
    _calculate_entropy p = Ok e /\ _estimate_crack_time p = Ok t
    /\ pw_length r = len p
    /\ character_analysis r = _analyze_characters p
    /\ pattern_analysis r = _analyze_patterns p
    /\ security_checks r = _security_checks self p
    /\ entropy r = e /\ crack_time r = t
    /\ strength_score r = spec_score r
    /\ strength_level r = _get_strength_level (strength_score r).
Proof.
  unfold analyze_password. intros Hr.
  apply bind_Ok in Hr as (e & He & Hr).
  apply bind_Ok in Hr as (t & Ht & Hr).
  apply bind_Ok in Hr as (s & Hs & Hr).
  apply Ok_inj in Hr. subst r.
  rewrite calculate_strength_score_spec in Hs. apply Ok_inj in Hs.
  exists e, t. split; [exact He|]. split; [exact Ht|].
  do 6 (split; [reflexivity|]). split.
  - etransitivity; [symmetry; exact Hs|].
    apply spec_score_ext; reflexivity.
  - reflexivity.
Qed.
End Evaluation.

(** C1: the score the code computes, by float additions on a running
    total and Python's [round], is the specification's sum taken in exact
    arithmetic, rounded to the nearest integer (a tie to the even one, as
    [round] does) and clamped to 0..100, and the computation never
    raises; the score of a report that evaluation returns is that sum
    over the report's own fields. *)
Theorem strength_score_is_additive_synthesis :
  (forall a : Analysis, _calculate_strength_score a = Ok (spec_score a))
  /\ (forall (P : platform) (self : PasswordAnalyzer) (p : str)
             (r : Analysis),
        analyze_password self p = Ok r -> strength_score r = spec_score r).
Proof.
  split.
  - exact calculate_strength_score_spec.
  - intros P self p r Hr.
    destruct (analyze_password_returns self p r Hr)
      as (e & t & _ & _ & _ & _ & _ & _ & _ & _ & Hs & _).
    exact Hs.
Qed.

(** C8: two reports that agree on everything but the substitution hints
    and the personal-info flag get the same score. *)
Theorem score_ignores_hints_and_personal_info (a b : Analysis) :
  same_but_hints_and_personal a b ->
  _calculate_strength_score a = _calculate_strength_score b.
Proof.
  intros (_ & Hl & _ & _ & Hc & Hr & Hs & Hk & Hd & Hi & Hp & Hm & He & _).
  unfold _calculate_strength_score.
  now rewrite Hl, Hc, Hr, Hs, Hk, Hd, Hi, Hp, Hm, He.
Qed.

Lemma score_ignores_hints_and_personal_info_witness :
  same_but_hints_and_personal
    (sample_report [] false)
    (sample_report [py "4 -> a"] true)
  /\ _calculate_strength_score (sample_report [] false)
     = _calculate_strength_score (sample_report [py "4 -> a"] true).
Proof.
  assert (Hsame : same_but_hints_and_personal
                    (sample_report [] false)
                    (sample_report [py "4 -> a"] true))
    by (repeat split).
  split; [exact Hsame|].
  exact (score_ignores_hints_and_personal_info _ _ Hsame).
Defined.

(** ** Common and pwned *)

Lemma list_contains_In (x : str) (l : list str) :
  list_contains x l = true <-> In x l.
Proof.
  unfold list_contains, str_eqb. rewrite existsb_exists. split.
  - intros (y & Hy & Heq).
    destruct (list_eq_dec Z.eq_dec x y) as [->|]; [assumption|discriminate].
  - intros Hx. exists x. split; [assumption|].
    destruct (list_eq_dec Z.eq_dec x x); [reflexivity|contradiction].
Qed.

(** ** Entropy *)

Lemma every_character_has_a_class (c : Z) :
  re_lower c || re_upper c || re_digit c || re_special c = true.
Proof.
  assert (Hd := ascii_digit_is_digit c).
  unfold re_lower, re_upper, re_special.
  destruct (in_range 97 122 c), (in_range 65 90 c), (in_range 48 57 c);
    cbn [orb negb]; try reflexivity;
    try (rewrite (Hd eq_refl)); try rewrite orb_true_r; reflexivity.
Qed.

Lemma no_category_iff_empty (p : str) :
  no_category (_analyze_characters p) = true <-> p = [].
Proof.
  unfold no_category, _analyze_characters, re_search.
  cbn [has_lowercase has_uppercase has_digits has_special].
  destruct p as [|c p]; [split; reflexivity|].
  split; [|discriminate]. intros Hn. exfalso.
  assert (Hc := every_character_has_a_class c).
  cbn [existsb] in Hn. apply negb_true_iff in Hn.
  apply orb_false_iff in Hn as [Hn Hs].
  apply orb_false_iff in Hn as [Hn Hd].
  apply orb_false_iff in Hn as [Hl Hu].
  apply orb_false_iff in Hl as [Hl _]. apply orb_false_iff in Hu as [Hu _].
  apply orb_false_iff in Hd as [Hd _]. apply orb_false_iff in Hs as [Hs _].
  rewrite Hl, Hu, Hd, Hs in Hc. discriminate.
Qed.

Section Entropy.
Context `{platform}.

Lemma math_log2_defined (n : Z) :
  0 < n -> exists l, math_log2 n = Ok l.
Proof.
  intros Hn. unfold math_log2.
  destruct (n <=? 0) eqn:E; [apply Z.leb_le in E; lia|].
  destruct (n =? 2 ^ Z.log2 n); eauto.
Qed.

Lemma calculate_entropy_of_profile (p : str) :
  _calculate_entropy p
  = (if no_category (_analyze_characters p) then Ok (PInt 0)
     else
       l <- math_log2 (profile_charset_size (_analyze_characters p)) ;;
       Ok (PFloat (round_2 (fmul (float_of_int (len p)) l))))%result.
Proof.
  unfold _calculate_entropy, profile_charset_size, no_category,
    _analyze_characters.
  cbn [lowercase uppercase digits special has_lowercase has_uppercase
       has_digits has_special].
  rewrite <- !search_iff_found.
  destruct (re_search re_lower p), (re_search re_upper p),
    (re_search re_digit p), (re_search re_special p); reflexivity.
Qed.

Lemma profile_charset_size_positive (p : str) :
  no_category (_analyze_characters p) = false ->
  0 < profile_charset_size (_analyze_characters p).
Proof.
  unfold profile_charset_size, no_category, _analyze_characters.
  cbn [lowercase uppercase digits special has_lowercase has_uppercase
       has_digits has_special].
  rewrite <- !search_iff_found.
  destruct (re_search re_lower p), (re_search re_upper p),
    (re_search re_digit p), (re_search re_special p);
    cbn [orb negb]; intros Hn; try discriminate; reflexivity.
Qed.

(** Where every decimal digit of the password is an ASCII digit, the
    code computes the entropy of the specification. *)
Lemma entropy_agrees_on_ascii_digits (p : str) :
  (forall c, In c p -> re_digit c = true -> spec_digit c = true) ->
  _calculate_entropy p = spec_entropy p.
Proof.
  intros Hd. rewrite calculate_entropy_of_profile.
  unfold spec_entropy, spec_charset_size, profile_charset_size,
    no_category, _analyze_characters.
  cbn [lowercase uppercase digits special has_lowercase has_uppercase
       has_digits has_special].
  rewrite <- !search_iff_found. unfold re_search.
  assert (Hdig : existsb re_digit p = existsb spec_digit p).
  { induction p as [|c p IH]; [reflexivity|]. cbn [existsb].
    rewrite (IH (fun x Hx => Hd x (or_intror Hx))). f_equal.
    assert (Hc := Hd c (or_introl eq_refl)).
    assert (Ha := ascii_digit_is_digit c). unfold spec_digit in *.
    destruct (re_digit c), (in_range 48 57 c); auto.
    symmetry; auto. }
  rewrite Hdig.
  change (existsb re_lower p) with (existsb spec_lowercase p).
  change (existsb re_upper p) with (existsb spec_uppercase p).
  change (existsb re_special p) with (existsb spec_special p).
  destruct (existsb spec_lowercase p), (existsb spec_uppercase p),
    (existsb spec_digit p), (existsb spec_special p); reflexivity.
Qed.

(** C4, at the input where the code leaves the claim: for the
    one-character password ARABIC-INDIC DIGIT THREE (U+0663) the
    specification has one category, special, a charset of 32 and the
    entropy [1 * log2(32) = 5.0]; the code finds a digit and a special
    character, adds up a charset of 42 and returns
    [round(1 * log2(42), 2)], which is 5.39 where the C library's
    [log2(42.0)] is 5.392317422778761. *)
Theorem entropy_counts_unicode_digit_in_two_categories :
  libm_log2 (float_of_int 42) = float_lit 5392317422778761 15 ->
  spec_charset_size [1635] = 32
  /\ spec_entropy [1635] = Ok (PFloat (float_of_int 5))
  /\ profile_charset_size (_analyze_characters [1635]) = 42
  /\ _calculate_entropy [1635] = Ok (PFloat (float_lit 539 2))
  /\ _calculate_entropy [1635] <> spec_entropy [1635].
Proof.
  intros Hlog.
  assert (Hspec : spec_entropy [1635] = Ok (PFloat (float_of_int 5)))
    by (vm_compute; reflexivity).
  assert (Hcode : _calculate_entropy [1635]
                  = Ok (PFloat (round_2
                                  (fmul (float_of_int 1)
                                     (libm_log2 (float_of_int 42))))))
    by reflexivity.
  rewrite Hlog in Hcode.
  change (round_2 (fmul (float_of_int 1)
                     (float_lit 5392317422778761 15)))
    with (float_lit 539 2) in Hcode.
  split; [reflexivity|]. split; [exact Hspec|].
  split; [reflexivity|]. split; [exact Hcode|].
  rewrite Hcode, Hspec. vm_compute. discriminate.
Qed.
End Entropy.

Lemma entropy_counts_unicode_digit_in_two_categories_witness :
  spec_charset_size [1635] = 32
  /\ spec_entropy (H := reference_platform) [1635]
     = Ok (PFloat (float_of_int 5))
  /\ profile_charset_size (_analyze_characters [1635]) = 42
  /\ _calculate_entropy (H := reference_platform) [1635]
     = Ok (PFloat (float_lit 539 2))
  /\ _calculate_entropy (H := reference_platform) [1635]
     <> spec_entropy (H := reference_platform) [1635].
Proof.
  exact (entropy_counts_unicode_digit_in_two_categories
           (H := reference_platform) eq_refl).
Defined.

Section Claims.
Context `{platform}.

(** C6: the pwned check and the is-common check are the same test,
    membership of the lower-cased password in the analyzer's list of
    common passwords, whatever the password. *)
Theorem pwned_check_is_common_check (self : PasswordAnalyzer) (p : str) :
  _check_pwned_passwords self p = is_common (_security_checks self p)
  /\ pwned_check (_security_checks self p)
     = is_common (_security_checks self p)
  /\ (_check_pwned_passwords analyzer p = true
      <-> In (lower p) _load_common_passwords)
  /\ (is_common (_security_checks analyzer p) = true
      <-> In (lower p) _load_common_passwords).
Proof.
  split; [reflexivity|]. split; [reflexivity|].
  split; apply list_contains_In.
Qed.

(** C10: evaluating the empty string returns a report with score 20 and
    level "Weak": its length, category flags, entropy and pattern
    findings give nothing, the requirements are not met, and the only
    points are the two tens for not common and not pwned. *)
Theorem empty_password_scores_20_weak :
  exists r,
    analyze_password analyzer [] = Ok r
    /\ strength_score r = 20 /\ strength_level r = py "Weak"
    /\ pw_length r = 0 /\ entropy r = PInt 0
    /\ no_category (character_analysis r) = true
    /\ pattern_analysis r
       = {| repeated_chars := []; sequential := [];
            keyboard_patterns := []; common_substitutions := [];
            dictionary_words := [] |}
    /\ is_common (security_checks r) = false
    /\ pwned_check (security_checks r) = false
    /\ all_met (meets_basic_requirements (security_checks r)) = false
    /\ crack_time r = py "Instant".
Proof.
  eexists. split; [vm_compute; reflexivity|].
  vm_compute. repeat split.
Qed.

(** C5, at the input where the code leaves the claim: a password of
    205 special characters has entropy 1025.0, and [2 ** 1025.0]
    raises [OverflowError], so no crack-time string is computed; the
    empty password does give "Instant". *)
Theorem crack_time_raises_on_long_password :
  _calculate_entropy long_special_password
  = Ok (PFloat (float_of_int 1025))
  /\ _estimate_crack_time long_special_password = Raise OverflowError
  /\ _estimate_crack_time [] = Ok (py "Instant").
Proof. vm_compute. repeat split. Qed.

(** C2, at the input where the code leaves the claim: for the same
    non-empty password evaluation raises [OverflowError] and returns
    no score and no level; whenever evaluation does return, the score
    is in 0..100 and the level is the one of the score's band. *)
Theorem evaluation_raises_on_long_password :
  long_special_password <> []
  /\ analyze_password analyzer long_special_password
     = Raise OverflowError
  /\ (forall p r,
        analyze_password analyzer p = Ok r ->
        0 <= strength_score r <= 100
        /\ strength_level r = py (spec_level (strength_score r))).
Proof.
  split; [discriminate|]. split; [vm_compute; reflexivity|].
  intros p r Hr.
  destruct (analyze_password_returns analyzer p r Hr)
    as (e & t & _ & _ & _ & _ & _ & _ & _ & _ & Hs & Hl).
  split.
  - rewrite Hs. apply spec_score_range.
  - rewrite Hl. apply get_strength_level_spec.
Qed.
End Claims.

(** ** The generator *)

Lemma floor_of_draw_in_range (r : Q) (n : Z) :
  (0 <= r)%Q -> (r < 1)%Q -> 0 < n ->
  0 <= Qfloor (r * inject_Z n) < n.
Proof.
  intros Hlo Hhi Hn.
  assert (Hn' : (0 < inject_Z n)%Q)
    by (change (inject_Z 0 < inject_Z n)%Q; rewrite <- Zlt_Qlt; exact Hn).
  split.
  - change 0 with (Qfloor (inject_Z 0)) at 1.
    apply Qfloor_resp_le. change (inject_Z 0) with 0%Q.
    apply Qmult_le_0_compat; [exact Hlo | apply Qlt_le_weak; exact Hn'].
  - rewrite Zlt_Qlt.
    apply Qle_lt_trans with (r * inject_Z n)%Q; [apply Qfloor_le|].
    rewrite <- (Qmult_1_l (inject_Z n)) at 2.
    apply Qmult_lt_compat_r; assumption.
Qed.

Lemma js_index_in_range (s : jsstr) (i : Z) :
  0 <= i < len s -> exists c, js_index s i = Some c /\ In c s.
Proof.
  intros Hi. unfold js_index.
  replace ((0 <=? i) && (i <? len s)) with true
    by (symmetry; apply andb_true_iff; split;
        [apply Z.leb_le | apply Z.ltb_lt]; lia).
  destruct (nth_error s (Z.to_nat i)) as [c|] eqn:E.
  - exists c. split; [reflexivity|]. eapply nth_error_In; eassumption.
  - apply nth_error_None in E. unfold len in Hi. lia.
Qed.

Lemma is_in_class (cls : jsstr) (c : ascii) :
  In c cls -> is_in cls c = true.
Proof.
  intros Hc. unfold is_in. apply existsb_exists.
  exists c. split; [assumption | apply Ascii.eqb_refl].
Qed.

Lemma has_one_of (cls : jsstr) (c : ascii) (password : jsstr) :
  In c cls -> In c password -> existsb (is_in cls) password = true.
Proof.
  intros Hc Hp. apply existsb_exists. exists c.
  split; [assumption | now apply is_in_class].
Qed.

Section Generator.
Variable random_values : nat -> Q.
Variable sort_random : jsstr -> rand jsstr.
Hypothesis random_values_range :
  forall i, (0 <= random_values i)%Q /\ (random_values i < 1)%Q.
Hypothesis sort_random_permutes :
  forall l s, Permutation l (fst (sort_random l s)).

Lemma draw_appends_one (cls password : jsstr) (s : nat) :
  0 < len cls ->
  exists c,
    In c cls
    /\ js_append password
         (js_index cls (fst (random_index random_values (len cls) s)))
       = password ++ [c].
Proof.
  intros Hcls. cbn [random_index rbind Math_random ret fst].
  destruct (random_values_range s) as [Hlo Hhi].
  destruct (js_index_in_range cls _
              (floor_of_draw_in_range _ _ Hlo Hhi Hcls)) as (c & Hc & Hin).
  exists c. split; [assumption|]. now rewrite Hc.
Qed.

(** The filling loop adds one character a round. *)
Lemma fill_rounds (chars : jsstr) (rounds : list nat)
    (start : rand jsstr) (password : jsstr) (m : nat) :
  0 < len chars ->
  (forall s, exists added,
      fst (start s) = password ++ added /\ List.length added = m) ->
  forall s, exists added,
    fst (for_in rounds
           (fun _ (acc : rand jsstr) =>
              (password <~ acc ;;
               i <~ random_index random_values (len chars) ;;
               ret (js_append password (js_index chars i)))%rand)
           start s)
    = password ++ added
    /\ List.length added = (m + List.length rounds)%nat.
Proof.
  intros Hchars. unfold for_in. revert start m.
  induction rounds as [|x rounds IH]; intros start m Hstart s.
  - destruct (Hstart s) as (added & Ha & Hm).
    exists added. simpl. split; [assumption | lia].
  - cbn [fold_left List.length].
    replace (m + S (List.length rounds))%nat
      with (S m + List.length rounds)%nat by lia.
    apply IH. clear s. intros s.
    destruct (Hstart s) as (added & Ha & Hm).
    unfold rbind at 1. destruct (start s) as [pw s1]. cbn [fst] in Ha.
    unfold rbind at 1.
    destruct (draw_appends_one chars pw s1 Hchars) as (c & _ & Hc).
    destruct (random_index random_values (len chars) s1) as [i s2].
    cbn [fst] in Hc. cbn [ret fst]. rewrite Hc, Ha.
    exists (added ++ [c]). rewrite app_assoc. split; [reflexivity|].
    rewrite length_app. simpl. lia.
Qed.

(** The password is a rearrangement of one character of each class
    followed by the twelve of the filling loop. *)
Lemma generatePassword_shape (s : nat) :
  exists c1 c2 c3 c4 added,
    In c1 upper_chars /\ In c2 lower_chars /\ In c3 digit_chars
    /\ In c4 symbol_chars /\ List.length added = 12%nat
    /\ Permutation ([c1; c2; c3; c4] ++ added)
         (fst (generatePassword random_values sort_random s)).
Proof.
  unfold generatePassword. cbv beta zeta.
  unfold rbind at 1.
  destruct (draw_appends_one upper_chars (js "") s eq_refl)
    as (c1 & H1 & E1).
  change (len upper_chars) with 26 in E1.
  destruct (random_index random_values 26 s) as [i1 s1].
  cbn [fst] in E1. cbv beta iota. rewrite E1.
  unfold rbind at 1.
  destruct (draw_appends_one lower_chars (js "" ++ [c1]) s1 eq_refl)
    as (c2 & H2 & E2).
  change (len lower_chars) with 26 in E2.
  destruct (random_index random_values 26 s1) as [i2 s2].
  cbn [fst] in E2. cbv beta iota. rewrite E2.
  unfold rbind at 1.
  destruct (draw_appends_one digit_chars ((js "" ++ [c1]) ++ [c2]) s2
              eq_refl) as (c3 & H3 & E3).
  change (len digit_chars) with 10 in E3.
  destruct (random_index random_values 10 s2) as [i3 s3].
  cbn [fst] in E3. cbv beta iota. rewrite E3.
  unfold rbind at 1.
  destruct (draw_appends_one symbol_chars
              (((js "" ++ [c1]) ++ [c2]) ++ [c3]) s3 eq_refl)
    as (c4 & H4 & E4).
  change (len symbol_chars) with 8 in E4.
  destruct (random_index random_values 8 s3) as [i4 s4].
  cbn [fst] in E4. cbv beta iota. rewrite E4.
  change ((((js "" ++ [c1]) ++ [c2]) ++ [c3]) ++ [c4])
    with [c1; c2; c3; c4].
  unfold rbind at 1. unfold fill.
  match goal with
  | |- context [let (a, s') := ?filling in _] =>
      assert (Hfill : exists added,
                 fst filling = [c1; c2; c3; c4] ++ added
                 /\ List.length added = 12%nat)
        by exact (fill_rounds
                    (js "ABCDEFGHIJKLMNOPQRSTUVWXYZabcdefghijklmnopqrstuvwxyz0123456789!@#$%^&*")
                    (py_range (16 - 4)) (ret [c1; c2; c3; c4])
                    [c1; c2; c3; c4] 0 eq_refl
                    (fun s => ex_intro _ []
                                (conj (eq_sym (app_nil_r _)) eq_refl))
                    s4);
      destruct Hfill as (added & Ha & Hm);
      destruct filling as [filled s5]
  end.
  cbn [fst] in Ha. subst filled. cbv beta iota.
  exists c1, c2, c3, c4, added.
  repeat (split; [assumption|]). apply sort_random_permutes.
Qed.

(** C9, where the code leaves the claim: the module registers no route
    [/generate], so the request of the tests for a password of 20
    characters finds no generation entry point on the server; the only
    generator of the source, [generatePassword] of the page, declares
    no length: whatever a call passes, the password it stores has 16
    characters, among them an uppercase letter, a lowercase letter, a
    digit and one of [!@#$%^&*], so a request for 20 characters gets
    16. *)
Theorem generation_ignores_requested_length
    (arguments : list Z) (s : nat) :
  ~ In "/generate"%string (map fst app_routes)
  /\ (let password :=
        fst (generatePassword_call random_values sort_random arguments s)
      in
      len password = 16
      /\ existsb (is_in upper_chars) password = true
      /\ existsb (is_in lower_chars) password = true
      /\ existsb (is_in digit_chars) password = true
      /\ existsb (is_in symbol_chars) password = true)
  /\ len (fst (generatePassword_call random_values sort_random [20] s))
     <> 20.
Proof.
  destruct (generatePassword_shape s)
    as (c1 & c2 & c3 & c4 & added & H1 & H2 & H3 & H4 & Hm & Hp).
  assert (Hlen : len (fst (generatePassword random_values sort_random s))
                 = 16).
  { unfold len. rewrite <- (Permutation_length Hp), length_app, Hm.
    reflexivity. }
  split; [|split].
  - cbn [app_routes map fst In]. intros [Hr|[Hr|[]]]; discriminate Hr.
  - cbv zeta. unfold generatePassword_call. split; [exact Hlen|].
    repeat split.
    + apply (has_one_of _ c1); [assumption|].
      apply (Permutation_in _ Hp). simpl. auto.
    + apply (has_one_of _ c2); [assumption|].
      apply (Permutation_in _ Hp). simpl. auto.
    + apply (has_one_of _ c3); [assumption|].
      apply (Permutation_in _ Hp). simpl. auto.
    + apply (has_one_of _ c4); [assumption|].
      apply (Permutation_in _ Hp). simpl. auto.
  - unfold generatePassword_call. rewrite Hlen. discriminate.
Qed.
End Generator.

Lemma zero_draws_range (i : nat) :
  (0 <= zero_draws i)%Q /\ (zero_draws i < 1)%Q.
Proof. unfold zero_draws. split; [apply Qle_refl | reflexivity]. Qed.

Lemma sort_keep_permutes (l : jsstr) (s : nat) :
  Permutation l (fst (sort_keep l s)).
Proof. apply Permutation_refl. Qed.

Lemma generation_ignores_requested_length_witness :
  ~ In "/generate"%string (map fst app_routes)
  /\ (let password :=
        fst (generatePassword_call zero_draws sort_keep [20] 0%nat) in
      len password = 16
      /\ existsb (is_in upper_chars) password = true
      /\ existsb (is_in lower_chars) password = true
      /\ existsb (is_in digit_chars) password = true
      /\ existsb (is_in symbol_chars) password = true)
  /\ len (fst (generatePassword_call zero_draws sort_keep [20] 0%nat))
     <> 20.
Proof.
  exact (generation_ignores_requested_length zero_draws sort_keep
           zero_draws_range sort_keep_permutes [20] 0%nat).
Defined.

(** * Further properties *)

(** ** Recommendations *)

Lemma append_if {A} (c : bool) (l : list A) (x : A) :
  (if c then l ++ [x] else l) = l ++ (if c then [x] else []).
Proof. destruct c; [reflexivity | now rewrite app_nil_r]. Qed.

Lemma get_recommendations_advisories (a : Analysis) :
  _get_recommendations a
  = if negb (truthy (advisories a)) then advisories a ++ [excellent]
    else advisories a.
Proof.
  assert (Hadv : forall l : list str, l = advisories a ->
            (if negb (truthy l) then l ++ [excellent] else l)
            = if negb (truthy (advisories a))
              then advisories a ++ [excellent] else advisories a)
    by (intros l ->; reflexivity).
  unfold _get_recommendations. cbv zeta. apply Hadv.
  unfold advisories, advice.
  rewrite !append_if, <- !app_assoc.
  f_equal;
    repeat match goal with
           | |- context [if ?c then _ else _] => destruct c
           end; reflexivity.
Qed.

Lemma advice_nil (c : bool) (m : string) : advice c m = [] <-> c = false.
Proof. destruct c; simpl; split; (reflexivity || discriminate). Qed.

Lemma advisories_nil (a : Analysis) :
  advisories a = [] <-> nothing_to_improve a = true.
Proof.
  unfold advisories, nothing_to_improve.
  assert (Happ : forall l l' : list str,
             l ++ l' = [] <-> l = [] /\ l' = [])
    by (intros l l'; split;
        [apply app_eq_nil | intros [-> ->]; reflexivity]).
  rewrite !Happ, !advice_nil, !andb_true_iff, !negb_true_iff,
    !negb_false_iff, Z.leb_le.
  destruct (pw_length a <? 8) eqn:E8; destruct (pw_length a <? 12) eqn:E12;
    repeat match goal with
           | E : (_ <? _) = true |- _ => apply Z.ltb_lt in E
           | E : (_ <? _) = false |- _ => apply Z.ltb_ge in E
           end;
    intuition (try discriminate; try lia).
Qed.

Lemma advice_length (c : bool) (m : string) :
  (List.length (advice c m) <= 1)%nat.
Proof. destruct c; simpl; lia. Qed.

Lemma advisories_length (a : Analysis) :
  (List.length (advisories a) <= 10)%nat.
Proof.
  unfold advisories. rewrite !length_app.
  repeat match goal with
         | |- context [List.length (advice ?c ?m)] =>
             let H := fresh "H" in
             assert (H := advice_length c m);
             generalize dependent (List.length (advice c m)); intros
         end.
  destruct (pw_length a <? 8); [|destruct (pw_length a <? 12)];
    simpl; lia.
Qed.

Lemma in_advice (c : bool) (m : string) (y : str) :
  In y (advice c m) -> y = py m.
Proof. destruct c; simpl; intuition. Qed.

Lemma excellent_is_no_advisory (a : Analysis) :
  ~ In excellent (advisories a).
Proof.
  unfold advisories. rewrite !in_app_iff. intros Hin.
  repeat (destruct Hin as [Hin|Hin]);
    try (apply in_advice in Hin; vm_compute in Hin; discriminate Hin).
  destruct (pw_length a <? 8); [|destruct (pw_length a <? 12)];
    simpl in Hin; try contradiction;
    destruct Hin as [Hin|[]]; vm_compute in Hin; discriminate Hin.
Qed.

(** X1: the recommendation list is never empty and has at most ten
    entries; it is the single "Excellent password!" message exactly when
    the report gives no reason for an advisory (length from 12, all four
    categories, not common, no finding that is penalised), and otherwise
    that message is not in it. *)
Theorem recommendations_never_empty (a : Analysis) :
  _get_recommendations a <> []
  /\ (List.length (_get_recommendations a) <= 10)%nat
  /\ (_get_recommendations a = [excellent]
      <-> nothing_to_improve a = true)
  /\ (In excellent (_get_recommendations a)
      <-> nothing_to_improve a = true).
Proof.
  rewrite get_recommendations_advisories.
  assert (Hnil := advisories_nil a).
  assert (Hlen := advisories_length a).
  assert (Hex := excellent_is_no_advisory a).
  destruct (advisories a) as [|m l] eqn:Ea; cbn [truthy negb app].
  - repeat split; try discriminate; try (simpl; lia); intros _;
      try (apply Hnil; reflexivity); try reflexivity; simpl; auto.
  - assert (Hno : nothing_to_improve a <> true)
      by (intros Hn; apply Hnil in Hn; discriminate).
    repeat split; try discriminate; try assumption;
      try (intros Hn; contradiction).
    intros Heq. injection Heq as -> ->. exfalso. apply Hex. simpl. auto.
Qed.

(** ** When evaluation returns *)

Lemma truediv_float_by_literal (f : float) (n : Z) :
  In n [60; 3600; 86400; 31536000] ->
  py_truediv (PFloat f) (PInt n)
  = Ok (PFloat (fdiv f (float_of_int n))).
Proof.
  intros [<-|[<-|[<-|[<-|[]]]]]; reflexivity.
Qed.

(** On a float, as [_estimate_crack_time] passes it, the formatting
    returns. *)
Lemma format_time_returns (f : float) :
  exists s, _format_time (PFloat f) = Ok s.
Proof.
  unfold _format_time.
  destruct (py_lt (PFloat f) (PInt 1)); [eauto|].
  destruct (py_lt (PFloat f) (PInt 60)); [eauto|].
  destruct (py_lt (PFloat f) (PInt 3600));
    [rewrite truediv_float_by_literal by (simpl; auto); cbn [bind]; eauto|].
  destruct (py_lt (PFloat f) (PInt 86400));
    [rewrite truediv_float_by_literal by (simpl; auto); cbn [bind]; eauto|].
  destruct (py_lt (PFloat f) (PInt 31536000));
    rewrite truediv_float_by_literal by (simpl; auto 6); cbn [bind]; eauto.
Qed.

Section Returns.
Context `{platform}.

Lemma calculate_entropy_returns (p : str) :
  exists e, _calculate_entropy p = Ok e.
Proof.
  rewrite calculate_entropy_of_profile.
  destruct (no_category (_analyze_characters p)) eqn:En; [eauto|].
  destruct (math_log2_defined _ (profile_charset_size_positive p En))
    as (l & Hl).
  rewrite Hl. cbn [bind]. eauto.
Qed.

Lemma pow2_overflows (e : pynum) :
  if overflows e then pow2 e = Raise OverflowError
  else exists v, pow2 e = Ok v.
Proof.
  destruct e as [n|[s|s| |s m x]]; cbn [overflows pow2].
  - destruct (0 <=? n); eauto.
  - eauto.
  - eauto.
  - eauto.
  - destruct (SFleb (float_of_int 1024) (S754_finite s m x)); eauto.
Qed.

Lemma calculate_entropy_shape (p : str) :
  _calculate_entropy p = Ok (PInt 0)
  \/ exists f, _calculate_entropy p = Ok (PFloat f).
Proof.
  rewrite calculate_entropy_of_profile.
  destruct (no_category (_analyze_characters p)) eqn:En; [now left|].
  destruct (math_log2_defined _ (profile_charset_size_positive p En))
    as (l & Hl).
  rewrite Hl. cbn [bind]. right. eauto.
Qed.

Lemma pow2_of_float (f : float) (v : pynum) :
  pow2 (PFloat f) = Ok v -> exists g, v = PFloat g.
Proof.
  destruct f as [s|s| |s m x]; cbn [pow2]; intros Hv.
  - apply Ok_inj in Hv. eauto.
  - apply Ok_inj in Hv. eauto.
  - apply Ok_inj in Hv. eauto.
  - destruct (SFleb (float_of_int 1024) (S754_finite s m x));
      [discriminate|]. apply Ok_inj in Hv. eauto.
Qed.

Lemma estimate_crack_time_overflows (p : str) (e : pynum) :
  _calculate_entropy p = Ok e ->
  if overflows e then _estimate_crack_time p = Raise OverflowError
  else exists t, _estimate_crack_time p = Ok t.
Proof.
  intros He. unfold _estimate_crack_time. rewrite He. cbn [bind].
  change (py_mul (PInt 2) (PFloat (float_lit 1000000000 0)))
    with (PFloat (float_of_int 2000000000)).
  destruct (calculate_entropy_shape p) as [H0|(f & Hf)].
  - rewrite H0 in He. apply Ok_inj in He. subst e.
    cbn [overflows pow2 Z.leb Z.compare bind].
    change (py_truediv (PInt (2 ^ 0)) (PFloat (float_of_int 2000000000)))
      with (Ok (PFloat (fdiv (float_of_int 1) (float_of_int 2000000000)))).
    cbn [bind]. apply format_time_returns.
  - rewrite Hf in He. apply Ok_inj in He. subst e.
    assert (Hp := pow2_overflows (PFloat f)).
    destruct (overflows (PFloat f)).
    + now rewrite Hp.
    + destruct Hp as (v & Hv).
      destruct (pow2_of_float f v Hv) as (g & ->). rewrite Hv.
      cbn [bind].
      change (py_truediv (PFloat g) (PFloat (float_of_int 2000000000)))
        with (Ok (PFloat (fdiv g (float_of_int 2000000000)))).
      cbn [bind]. apply format_time_returns.
Qed.

Lemma analyze_password_outcome
    (self : PasswordAnalyzer) (p : str) (e : pynum) :
  _calculate_entropy p = Ok e ->
  if overflows e
  then analyze_password self p = Raise OverflowError
  else exists r, analyze_password self p = Ok r.
Proof.
  intros He.
  assert (Ht := estimate_crack_time_overflows p e He).
  unfold analyze_password. rewrite He. cbn [bind].
  destruct (overflows e).
  - now rewrite Ht.
  - destruct Ht as (t & ->). cbn [bind].
    rewrite calculate_strength_score_spec. cbn [bind]. eauto.
Qed.

(** X2: evaluation raises for exactly the passwords whose entropy is a
    finite float from 1024 on, and then with [OverflowError]; for every
    other password it returns a report. *)
Theorem evaluation_returns_below_1024_bits
    (self : PasswordAnalyzer) (p : str) :
  exists e,
    _calculate_entropy p = Ok e
    /\ if overflows e
       then analyze_password self p = Raise OverflowError
       else exists r, analyze_password self p = Ok r.
Proof.
  destruct (calculate_entropy_returns p) as (e & He).
  exists e. split; [assumption|].
  now apply analyze_password_outcome.
Qed.
End Returns.

(** ** Bounds on the score *)

Lemma total_range_rounds_monotonically :
  forallb rounds_monotonically total_range = true.
Proof. vm_compute. reflexivity. Qed.

Lemma round_quarters_step (k : Z) :
  -160 <= k <= 400 ->
  round_half_even (k # 4) <= round_half_even ((k + 1) # 4).
Proof.
  intros Hk. apply Z.leb_le.
  apply (proj1 (forallb_forall _ _) total_range_rounds_monotonically).
  apply in_Zrange. lia.
Qed.

Lemma round_quarters_monotone (k k' : Z) :
  -160 <= k -> k <= k' -> k' <= 401 ->
  round_half_even (k # 4) <= round_half_even (k' # 4).
Proof.
  intros Hlo Hle Hhi.
  replace k' with (k + Z.of_nat (Z.to_nat (k' - k))) by lia.
  assert (Hn : k + Z.of_nat (Z.to_nat (k' - k)) <= 401) by lia.
  induction (Z.to_nat (k' - k)) as [|n IH].
  - rewrite Z.add_0_r. lia.
  - etransitivity; [apply IH; lia|].
    replace (k + Z.of_nat (S n)) with (k + Z.of_nat n + 1) by lia.
    apply round_quarters_step. lia.
Qed.

Lemma spec_score_quarters (a : Analysis) :
  spec_score a = clamp 0 100 (round_half_even (quarter_points a # 4)).
Proof.
  unfold spec_score.
  now rewrite (round_half_even_comp _ _ (spec_points_quarters a)).
Qed.

Lemma spec_score_at_most (a : Analysis) (k : Z) :
  quarter_points a <= k -> k <= 400 ->
  spec_score a <= clamp 0 100 (round_half_even (k # 4)).
Proof.
  intros Hk Hhi. rewrite spec_score_quarters.
  assert (Hr := quarter_points_range a).
  assert (Hm := round_quarters_monotone (quarter_points a) k
                  ltac:(lia) Hk ltac:(lia)).
  unfold clamp. lia.
Qed.

Lemma spec_score_monotone (a b : Analysis) :
  quarter_points a <= quarter_points b -> spec_score a <= spec_score b.
Proof.
  intros Hab. rewrite (spec_score_quarters b).
  apply spec_score_at_most; [assumption|].
  apply quarter_points_range.
Qed.

Lemma b2z_monotone (x y : bool) :
  (x = true -> y = true) -> Z.b2z x <= Z.b2z y.
Proof.
  destruct x, y; simpl; intros Hxy; try lia.
  all: specialize (Hxy eq_refl); discriminate.
Qed.

(** X3: a finding never raises the score: of two reports that agree on
    the length, the character profile, the entropy and the security
    checks, the one with a finding of every kind the other has scores no
    higher. *)
Theorem findings_never_raise_the_score (a b : Analysis) :
  no_fewer_findings a b ->
  exists sa sb,
    _calculate_strength_score a = Ok sa
    /\ _calculate_strength_score b = Ok sb
    /\ sa <= sb.
Proof.
  intros (Hl & Hc & He & Hs & Hr & Hq & Hk & Hd).
  exists (spec_score a), (spec_score b).
  rewrite !calculate_strength_score_spec. repeat split.
  apply spec_score_monotone. unfold quarter_points. cbv zeta.
  rewrite Hl, Hc, He, Hs.
  apply b2z_monotone in Hr, Hq, Hk, Hd. lia.
Qed.

Lemma findings_never_raise_the_score_witness :
  exists sa sb,
    _calculate_strength_score
      (sample_report_with
         {| repeated_chars := [115]; sequential := [];
            keyboard_patterns := []; common_substitutions := [];
            dictionary_words := [py "password"] |}) = Ok sa
    /\ _calculate_strength_score
         (sample_report_with
            {| repeated_chars := [115]; sequential := [];
               keyboard_patterns := []; common_substitutions := [];
               dictionary_words := [] |}) = Ok sb
    /\ sa <= sb.
Proof.
  apply findings_never_raise_the_score.
  repeat split; try (intros _; reflexivity); try discriminate.
Defined.

Lemma re_special_ascii_lower (c : Z) :
  re_special (ascii_lower c) = re_special c.
Proof.
  unfold ascii_lower, re_upper, re_special, in_range.
  destruct ((65 <=? c) && (c <=? 90)) eqn:Eu; [|now rewrite Eu].
  apply andb_true_iff in Eu as [Hlo Hhi].
  apply Z.leb_le in Hlo. apply Z.leb_le in Hhi.
  replace (97 <=? c + 32) with true by (symmetry; apply Z.leb_le; lia).
  replace (c + 32 <=? 122) with true by (symmetry; apply Z.leb_le; lia).
  replace (65 <=? c) with true by (symmetry; apply Z.leb_le; lia).
  replace (c <=? 90) with true by (symmetry; apply Z.leb_le; lia).
  cbn [andb orb negb]. now rewrite orb_true_r.
Qed.

Lemma common_entries_plain_and_short :
  forallb plain_and_short _load_common_passwords = true.
Proof. vm_compute. reflexivity. Qed.

Lemma length_points_short (n : Z) : n <= 11 -> length_points n <= 15.
Proof.
  intros Hn. unfold length_points.
  destruct (12 <=? n) eqn:E; [apply Z.leb_le in E; lia|].
  destruct (8 <=? n), (6 <=? n), (4 <=? n); lia.
Qed.

Lemma level_at_most_moderate (score : Z) :
  score <= 54 ->
  In (_get_strength_level score) [py "Very Weak"; py "Weak"; py "Moderate"].
Proof.
  intros Hs. unfold _get_strength_level.
  destruct (80 <=? score) eqn:E80; [apply Z.leb_le in E80; lia|].
  destruct (60 <=? score) eqn:E60; [apply Z.leb_le in E60; lia|].
  destruct (40 <=? score), (20 <=? score); simpl; auto.
Qed.

Section Common.
Context `{platform}.

Lemma lower_ascii (p : str) :
  forallb is_ascii p = true -> lower p = map ascii_lower p.
Proof. intros Hp. unfold lower. now rewrite Hp. Qed.

(** X4: an ASCII password that is in the list of common passwords, in
    whatever case, is never rated above "Moderate": its report has a
    score of at most 54. *)
Theorem common_ascii_password_at_most_moderate (p : str) (r : Analysis) :
  forallb is_ascii p = true ->
  is_common (_security_checks analyzer p) = true ->
  analyze_password analyzer p = Ok r ->
  strength_score r <= 54
  /\ In (strength_level r) [py "Very Weak"; py "Weak"; py "Moderate"].
Proof.
  intros Hascii Hcommon Hr.
  destruct (analyze_password_returns analyzer p r Hr)
    as (e & t & _ & _ & Hlen & Hca & _ & Hsc & _ & _ & Hs & Hl).
  cbn [_security_checks is_common] in Hcommon.
  assert (Hin : In (map ascii_lower p) _load_common_passwords).
  { apply list_contains_In. now rewrite <- lower_ascii. }
  assert (Hplain := proj1 (forallb_forall _ _)
                      common_entries_plain_and_short _ Hin).
  apply andb_true_iff in Hplain as [Hspecial Hshort].
  apply negb_true_iff in Hspecial. apply Z.leb_le in Hshort.
  assert (Hsp : has_special (character_analysis r) = false).
  { rewrite Hca. cbn [_analyze_characters has_special]. unfold re_search.
    rewrite <- Hspecial. clear. induction p as [|c p IH]; [reflexivity|].
    cbn [map existsb]. now rewrite re_special_ascii_lower, IH. }
  assert (Hn : pw_length r <= 11).
  { rewrite Hlen. unfold len in *. now rewrite length_map in Hshort. }
  assert (Hscore : strength_score r <= 54).
  { rewrite Hs.
    change 54 with (clamp 0 100 (round_half_even (215 # 4))).
    apply spec_score_at_most; [|lia].
    unfold quarter_points. cbv zeta.
    rewrite Hsc, Hsp.
    cbn [_security_checks is_common pwned_check meets_basic_requirements
         _check_pwned_passwords].
    cbn [is_common _security_checks] in Hcommon.
    unfold _check_pwned_passwords. rewrite Hcommon.
    assert (Hreq : all_met (_meets_basic_requirements p) = false).
    { cbn [_meets_basic_requirements all_met forallb].
      rewrite Hca in Hsp. cbn [_analyze_characters has_special] in Hsp.
      rewrite Hsp. now rewrite !andb_false_r. }
    rewrite Hreq.
    assert (Hlp := length_points_short _ Hn).
    assert (He := entropy_points_range (entropy r)).
    assert (H1 := b2z_bounds (has_lowercase (character_analysis r))).
    assert (H2 := b2z_bounds (has_uppercase (character_analysis r))).
    assert (H3 := b2z_bounds (has_digits (character_analysis r))).
    assert (H8 := b2z_bounds (truthy (repeated_chars (pattern_analysis r)))).
    assert (H9 := b2z_bounds (truthy (sequential (pattern_analysis r)))).
    assert (H10 := b2z_bounds
                     (truthy (keyboard_patterns (pattern_analysis r)))).
    assert (H11 := b2z_bounds
                     (truthy (dictionary_words (pattern_analysis r)))).
    cbn [negb Z.b2z]. lia. }
  split; [assumption|]. rewrite Hl. now apply level_at_most_moderate.
Qed.
End Common.

Lemma common_ascii_password_at_most_moderate_witness :
  exists r,
    analyze_password (H := example_platform) analyzer (py "PassWord")
    = Ok r
    /\ strength_score r <= 54
    /\ In (strength_level r) [py "Very Weak"; py "Weak"; py "Moderate"].
Proof.
  assert (Hr : exists r,
             analyze_password (H := example_platform) analyzer
               (py "PassWord") = Ok r)
    by (eexists; vm_compute; reflexivity).
  destruct Hr as (r & Hr). exists r. split; [exact Hr|].
  apply (common_ascii_password_at_most_moderate (H := example_platform)
           (py "PassWord") r);
    [reflexivity | reflexivity | exact Hr].
Defined.

(** ** Repeated characters and distinct characters *)

Lemma find_repeated_filter (p : str) :
  _find_repeated_chars p
  = nodup Z.eq_dec
      (map (item p)
         (filter (fun i => item p i =? item p (i + 1))
            (py_range (len p - 1)))).
Proof. unfold _find_repeated_chars. now rewrite for_in_collect. Qed.

Lemma repeated_chars_adjacent (p : str) (c : Z) :
  In c (_find_repeated_chars p)
  <-> exists i, (i + 1 < List.length p)%nat
                /\ item p i = c /\ item p (i + 1) = c.
Proof.
  rewrite find_repeated_filter, nodup_In, in_map_iff. split.
  - intros (i & Hc & Hi). apply filter_In in Hi as [Hr He].
    apply in_py_range in Hr. apply Z.eqb_eq in He. unfold len in Hr.
    exists i. repeat split; [lia | assumption | congruence].
  - intros (i & Hi & Hc & Hc'). exists i. split; [assumption|].
    apply filter_In. split.
    + apply in_py_range. unfold len. lia.
    + apply Z.eqb_eq. congruence.
Qed.

(** X5: the repeated characters are reported once each, and a
    character is reported exactly when it stands at two adjacent
    positions of the password. *)
Theorem repeated_chars_are_adjacent_pairs (p : str) :
  NoDup (_find_repeated_chars p)
  /\ forall c,
       In c (_find_repeated_chars p)
       <-> exists i, (i + 1 < List.length p)%nat
                     /\ item p i = c /\ item p (i + 1) = c.
Proof.
  split; [|apply repeated_chars_adjacent].
  rewrite find_repeated_filter. apply NoDup_nodup.
Qed.

Lemma nodup_length_le {A} (dec : forall x y : A, {x = y} + {x <> y})
    (l : list A) :
  (List.length (nodup dec l) <= List.length l)%nat.
Proof.
  induction l as [|a l IH]; simpl; [lia|].
  destruct (in_dec dec a l); simpl; lia.
Qed.

Lemma nodup_length_eq {A} (dec : forall x y : A, {x = y} + {x <> y})
    (l : list A) :
  List.length (nodup dec l) = List.length l <-> NoDup l.
Proof.
  split.
  - induction l as [|a l IH]; simpl; [constructor|].
    assert (Hle := nodup_length_le dec l).
    destruct (in_dec dec a l) as [Hin|Hin]; simpl; intros Hlen; [lia|].
    constructor; [assumption | apply IH; lia].
  - intros Hl. now rewrite nodup_fixed_point.
Qed.

(** X6: the number of distinct characters is at most the length, with
    equality exactly when no character occurs twice; a password with a
    repeated-character finding has fewer distinct characters than its
    length. *)
Theorem unique_chars_at_most_length (p : str) :
  0 <= unique_chars (_analyze_characters p) <= len p
  /\ (unique_chars (_analyze_characters p) = len p <-> NoDup p)
  /\ (_find_repeated_chars p <> [] ->
      unique_chars (_analyze_characters p) < len p).
Proof.
  cbn [_analyze_characters unique_chars]. unfold len.
  assert (Hle := nodup_length_le Z.eq_dec p).
  assert (Heq := nodup_length_eq Z.eq_dec p).
  split; [lia|]. split.
  - rewrite <- Heq. lia.
  - intros Hrep.
    assert (Hneq : List.length (nodup Z.eq_dec p) <> List.length p).
    { intros Hlen. apply Heq in Hlen. apply Hrep.
      destruct (_find_repeated_chars p) as [|c l] eqn:Er; [reflexivity|].
      exfalso.
      assert (Hc : In c (_find_repeated_chars p))
        by (rewrite Er; simpl; auto).
      apply repeated_chars_adjacent in Hc as (i & Hi & Hc & Hc').
      assert (Hnth := proj1 (NoDup_nth p 0) Hlen i (i + 1)%nat
                        ltac:(lia) ltac:(lia)).
      unfold item in Hc, Hc'. rewrite Hc, Hc' in Hnth.
      specialize (Hnth eq_refl). lia. }
    lia.
Qed.

(** ** Substitution hints *)

Lemma contains_one_char (c : Z) (p : str) :
  str_contains [c] p = existsb (Z.eqb c) p.
Proof.
  induction p as [|b p IH]; [reflexivity|].
  cbn [str_contains startswith existsb]. rewrite IH.
  destruct p; now rewrite andb_true_r.
Qed.

Lemma find_common_substitutions_filter (p : str) :
  _find_common_substitutions p
  = map annotation
      (filter (fun kv => existsb (Z.eqb (fst kv)) p) substitutions).
Proof.
  unfold _find_common_substitutions.
  rewrite (for_in_collect (fun kv => str_contains [fst kv] p) annotation).
  cbn [app]. f_equal. apply filter_ext. intros kv.
  apply contains_one_char.
Qed.

(** X7: the substitution hints are the annotations, in the order of the
    table, of the entries whose character occurs in the password: at
    most nine, each seven characters long, and the one of an entry is
    given exactly when its character occurs. *)
Theorem substitution_hints_follow_the_table (p : str) :
  _find_common_substitutions p
  = map annotation
      (filter (fun kv => existsb (Z.eqb (fst kv)) p) substitutions)
  /\ (List.length (_find_common_substitutions p) <= 9)%nat
  /\ Forall (fun hint => List.length hint = 7%nat)
       (_find_common_substitutions p)
  /\ Forall (fun kv =>
               In (annotation kv) (_find_common_substitutions p)
               <-> In (fst kv) p)
       substitutions.
Proof.
  rewrite find_common_substitutions_filter.
  split; [reflexivity|]. split; [|split].
  - rewrite length_map.
    etransitivity; [apply filter_length_le|]. reflexivity.
  - apply Forall_forall. intros hint Hh.
    apply in_map_iff in Hh as (kv & <- & _). reflexivity.
  - apply Forall_forall. intros kv Hkv. rewrite in_map_iff. split.
    + intros (kv' & Ha & Hf). apply filter_In in Hf as [_ Hf].
      apply existsb_exists in Hf as (x & Hx & Hxe).
      apply Z.eqb_eq in Hxe. subst x.
      injection Ha as Hfst _. now rewrite <- Hfst.
    + intros Hin. exists kv. split; [reflexivity|].
      apply filter_In. split; [assumption|].
      apply existsb_exists. exists (fst kv).
      split; [assumption | apply Z.eqb_refl].
Qed.

(** ** Dictionary words and keyboard patterns *)

Lemma for_in_nested {A B C} (g : A -> list B) (c : A -> B -> bool)
    (f : A -> B -> C) (l : list A) (acc : list C) :
  for_in l
    (fun x acc =>
       for_in (g x) (fun y acc => if c x y then acc ++ [f x y] else acc)
         acc)
    acc
  = acc ++ flat_map (fun x => map (f x) (filter (c x) (g x))) l.
Proof.
  unfold for_in at 1. revert acc.
  induction l as [|x l IH]; intros acc; simpl.
  - now rewrite app_nil_r.
  - rewrite IH, for_in_collect. now rewrite <- app_assoc.
Qed.

Lemma filter_map_swap {A B} (f : A -> B) (c : B -> bool) (l : list A) :
  map f (filter (fun x => c (f x)) l) = filter c (map f l).
Proof.
  induction l as [|x l IH]; simpl; [reflexivity|].
  destruct (c (f x)); simpl; now rewrite IH.
Qed.

Lemma startswith_app (w x b : str) :
  startswith w x = true -> startswith w (x ++ b) = true.
Proof.
  revert x. induction w as [|a w IH]; intros [|y x]; simpl;
    try reflexivity; try discriminate.
  intros Hw. apply andb_true_iff in Hw as [Ha Hw].
  rewrite Ha. now apply IH.
Qed.

Lemma str_contains_app_r (w x b : str) :
  str_contains w x = true -> str_contains w (x ++ b) = true.
Proof.
  induction x as [|y x IH]; cbn [str_contains app].
  - rewrite orb_false_r. intros Hw.
    destruct w; [|discriminate]. destruct b; reflexivity.
  - intros Hw. apply orb_true_iff in Hw as [Hw|Hw].
    + change (y :: x ++ b) with ((y :: x) ++ b).
      now rewrite (startswith_app _ _ b Hw).
    + rewrite (IH Hw). apply orb_true_r.
Qed.

Lemma str_contains_app_l (w a x : str) :
  str_contains w x = true -> str_contains w (a ++ x) = true.
Proof.
  intros Hw. induction a as [|y a IH]; [assumption|].
  cbn [app str_contains]. rewrite IH. apply orb_true_r.
Qed.

Lemma re_search_at_split (here : str -> bool) (s : str) :
  re_search_at here s = true
  <-> exists a b, s = a ++ b /\ here b = true.
Proof.
  induction s as [|c s IH]; cbn [re_search_at].
  - rewrite orb_false_r. split.
    + intros Hh. now exists [], [].
    + intros (a & b & Hs & Hh). symmetry in Hs.
      apply app_eq_nil in Hs as [_ ->]. assumption.
  - rewrite orb_true_iff, IH. split.
    + intros [Hh|(a & b & -> & Hh)].
      * now exists [], (c :: s).
      * now exists (c :: a), b.
    + intros ([|x a] & b & Hs & Hh).
      * left. cbn [app] in Hs. now subst b.
      * right. cbn [app] in Hs. injection Hs as _ ->. now exists a, b.
Qed.

Lemma search_at_startswith (w s : str) :
  re_search_at (startswith w) s = str_contains w s.
Proof.
  induction s as [|c s IH]; cbn [re_search_at str_contains];
    [reflexivity | now rewrite IH].
Qed.

Lemma digits_here_split (n : nat) (s : str) :
  digits_here n s = true
  <-> exists d rest,
        s = d ++ rest /\ List.length d = n /\ forallb re_digit d = true.
Proof.
  revert s. induction n as [|n IH]; intros s; cbn [digits_here].
  - split; [intros _; now exists [], s|reflexivity].
  - destruct s as [|c s].
    + split; [discriminate|]. intros (d & rest & Hs & Hd & _).
      destruct d; [discriminate Hd | discriminate Hs].
    + rewrite andb_true_iff, IH. split.
      * intros (Hc & d & rest & -> & Hd & Hall).
        exists (c :: d), rest. cbn [app List.length forallb].
        now rewrite Hc, Hall, Hd.
      * intros ([|x d] & rest & Hs & Hd & Hall); [discriminate Hd|].
        cbn [app] in Hs. injection Hs as -> ->.
        cbn [forallb] in Hall. apply andb_true_iff in Hall as [Hx Hall].
        split; [assumption|]. exists d, rest.
        cbn [List.length] in Hd. split; [reflexivity|].
        split; [congruence | assumption].
Qed.

Lemma digits_here_app (n : nat) (x b : str) :
  digits_here n x = true -> digits_here n (x ++ b) = true.
Proof.
  rewrite !digits_here_split. intros (d & rest & -> & Hd & Hall).
  exists d, (rest ++ b). now rewrite app_assoc.
Qed.

Lemma any_here_app (words : list string) (x b : str) :
  any_here words x = true -> any_here words (x ++ b) = true.
Proof.
  unfold any_here. rewrite !existsb_exists. intros (w & Hw & Hs).
  exists w. split; [assumption | now apply startswith_app].
Qed.

Lemma re_search_at_extension (here : str -> bool) (a s b : str) :
  (forall x y, here x = true -> here (x ++ y) = true) ->
  re_search_at here s = true -> re_search_at here (a ++ s ++ b) = true.
Proof.
  intros Hmono. rewrite !re_search_at_split.
  intros (u & v & -> & Hv). exists (a ++ u), (v ++ b).
  split; [now rewrite <- !app_assoc | now apply Hmono].
Qed.

Section Finders.
Context `{platform}.

Lemma lower_app_ascii (a b : str) :
  forallb is_ascii a = true -> forallb is_ascii b = true ->
  lower (a ++ b) = lower a ++ lower b.
Proof.
  intros Ha Hb. unfold lower.
  now rewrite forallb_app, Ha, Hb, map_app.
Qed.

Lemma contained_in_extension (w pre p post : str) :
  forallb is_ascii pre = true -> forallb is_ascii p = true ->
  forallb is_ascii post = true ->
  str_contains w (lower p) = true ->
  str_contains w (lower (pre ++ p ++ post)) = true.
Proof.
  intros Hpre Hp Hpost Hw.
  rewrite lower_app_ascii, lower_app_ascii; try assumption.
  - now apply str_contains_app_l, str_contains_app_r.
  - now rewrite forallb_app, Hp, Hpost.
Qed.

Lemma find_dictionary_filter (p : str) :
  _find_dictionary_words p
  = filter (fun w => str_contains (lower w) (lower p)) dictionary.
Proof.
  unfold _find_dictionary_words.
  rewrite (for_in_collect (fun w => str_contains (lower w) (lower p))
             (fun w => w)).
  cbn [app]. now rewrite map_id.
Qed.

Lemma find_keyboard_flat (p : str) :
  _find_keyboard_patterns p
  = flat_map
      (fun row =>
         filter (fun w => str_contains (lower w) (lower p))
           (row_windows row))
      keyboard_rows.
Proof.
  unfold _find_keyboard_patterns. cbv zeta.
  rewrite (for_in_nested (fun row => py_range (len row - 2))
             (fun row i =>
                str_contains (lower (slice row i (i + 3))) (lower p))
             (fun row i => slice row i (i + 3))).
  cbn [app]. apply flat_map_ext. intros row. unfold row_windows.
  apply (filter_map_swap (fun i => slice row i (i + 3))
           (fun w => str_contains (lower w) (lower p))).
Qed.

(** X8: the dictionary findings are the words of the list, in the
    list's order and each at most once, whose lower-case form is
    contained in the lower-cased password. *)
Theorem dictionary_findings_are_contained_words (p : str) :
  _find_dictionary_words p
  = filter (fun w => str_contains (lower w) (lower p)) dictionary
  /\ NoDup (_find_dictionary_words p)
  /\ (List.length (_find_dictionary_words p) <= 10)%nat
  /\ forall w,
       In w (_find_dictionary_words p)
       <-> In w dictionary /\ str_contains (lower w) (lower p) = true.
Proof.
  rewrite find_dictionary_filter. split; [reflexivity|].
  split; [|split].
  - apply NoDup_filter.
    assert (Hd : nodup (list_eq_dec Z.eq_dec) dictionary = dictionary)
      by (vm_compute; reflexivity).
    rewrite <- Hd. apply NoDup_nodup.
  - etransitivity; [apply filter_length_le|]. reflexivity.
  - intros w. rewrite filter_In. reflexivity.
Qed.

(** X9: the keyboard findings are windows of three adjacent keys of a
    row whose lower-case form is contained in the lower-cased password,
    row by row: at most 28, each three characters long. *)
Theorem keyboard_findings_are_contained_windows (p : str) :
  _find_keyboard_patterns p
  = flat_map
      (fun row =>
         filter (fun w => str_contains (lower w) (lower p))
           (row_windows row))
      keyboard_rows
  /\ (List.length (_find_keyboard_patterns p) <= 28)%nat
  /\ Forall (fun w => List.length w = 3%nat
                      /\ str_contains (lower w) (lower p) = true)
       (_find_keyboard_patterns p).
Proof.
  rewrite find_keyboard_flat. split; [reflexivity|]. split.
  - unfold keyboard_rows. cbn [map flat_map].
    rewrite !length_app.
    repeat match goal with
           | |- context [List.length (filter ?c ?l)] =>
               let H := fresh "H" in
               assert (H := filter_length_le c l);
               generalize dependent (List.length (filter c l)); intros
           end.
    vm_compute in H0, H1, H2, H3. simpl. lia.
  - apply Forall_forall. intros w Hw.
    apply in_flat_map in Hw as (row & Hrow & Hw).
    apply filter_In in Hw as [Hw Hc]. split; [|assumption].
    assert (Hlen : forallb
                     (fun row =>
                        forallb (fun w => (List.length w =? 3)%nat)
                          (row_windows row))
                     keyboard_rows = true)
      by (vm_compute; reflexivity).
    apply Nat.eqb_eq.
    exact (proj1 (forallb_forall _ _)
             (proj1 (forallb_forall _ _) Hlen row Hrow) w Hw).
Qed.

(** X10: putting ASCII characters before and after an ASCII password
    loses no dictionary finding and no keyboard finding, and a password
    flagged for personal information stays flagged. *)
Theorem findings_survive_extension (pre p post : str) :
  forallb is_ascii pre = true -> forallb is_ascii p = true ->
  forallb is_ascii post = true ->
  incl (_find_dictionary_words p)
       (_find_dictionary_words (pre ++ p ++ post))
  /\ incl (_find_keyboard_patterns p)
          (_find_keyboard_patterns (pre ++ p ++ post))
  /\ (_contains_personal_info p = true ->
      _contains_personal_info (pre ++ p ++ post) = true).
Proof.
  intros Hpre Hp Hpost. rewrite !find_dictionary_filter, !find_keyboard_flat.
  split; [|split]; [intros w Hw | intros w Hw |].
  - apply filter_In in Hw as [Hw Hc]. apply filter_In.
    split; [assumption|]. now apply contained_in_extension.
  - apply in_flat_map in Hw as (row & Hrow & Hw).
    apply filter_In in Hw as [Hw Hc].
    apply in_flat_map. exists row. split; [assumption|].
    apply filter_In. split; [assumption|].
    now apply contained_in_extension.
  - unfold _contains_personal_info. cbv zeta. cbn [existsb].
    rewrite (lower_app_ascii pre (p ++ post)), (lower_app_ascii p post)
      by (try assumption; now rewrite forallb_app, Hp, Hpost).
    rewrite !orb_false_r, !orb_true_iff.
    intros [Hd|[Hm|Hw]].
    + left. apply re_search_at_extension; [apply digits_here_app|].
      assumption.
    + right. left. apply re_search_at_extension; [apply any_here_app|].
      assumption.
    + right. right. apply re_search_at_extension; [apply any_here_app|].
      assumption.
Qed.

(** X11: the common-password, pwned, dictionary, keyboard and
    personal-info checks do not see the case of ASCII letters: two ASCII
    passwords with the same lower-case form get the same results. *)
Theorem checks_ignore_ascii_case (self : PasswordAnalyzer) (p q : str) :
  forallb is_ascii p = true -> forallb is_ascii q = true ->
  map ascii_lower p = map ascii_lower q ->
  is_common (_security_checks self p) = is_common (_security_checks self q)
  /\ _check_pwned_passwords self p = _check_pwned_passwords self q
  /\ _contains_personal_info p = _contains_personal_info q
  /\ _find_dictionary_words p = _find_dictionary_words q
  /\ _find_keyboard_patterns p = _find_keyboard_patterns q.
Proof.
  intros Hp Hq Hpq.
  assert (Hl : lower p = lower q) by (now rewrite !lower_ascii).
  rewrite !find_dictionary_filter, !find_keyboard_flat.
  unfold _security_checks, _check_pwned_passwords, _contains_personal_info.
  cbn [is_common]. now rewrite Hl.
Qed.
(** X12: a password is flagged for personal information exactly when
    its lower-case form has four decimal digits in a row or contains
    one of the twelve month abbreviations or seven day names. *)
Theorem personal_info_is_a_substring_check (p : str) :
  _contains_personal_info p = true
  <-> (exists a d b,
         lower p = a ++ d ++ b /\ List.length d = 4%nat
         /\ forallb re_digit d = true)
      \/ exists w,
           In w personal_words /\ str_contains (py w) (lower p) = true.
Proof.
  unfold _contains_personal_info. cbv zeta. cbn [existsb].
  rewrite !orb_false_r, !orb_true_iff, !re_search_at_split.
  assert (Hany : forall words,
             (exists a b, lower p = a ++ b /\ any_here words b = true)
             <-> exists w, In w words
                           /\ str_contains (py w) (lower p) = true).
  { intros words. split.
    - intros (a & b & Hs & Hb). unfold any_here in Hb.
      apply existsb_exists in Hb as (w & Hw & Hst).
      exists w. split; [assumption|].
      rewrite <- search_at_startswith. apply re_search_at_split.
      now exists a, b.
    - intros (w & Hw & Hc). rewrite <- search_at_startswith in Hc.
      apply re_search_at_split in Hc as (a & b & Hs & Hst).
      exists a, b. split; [assumption|]. unfold any_here.
      apply existsb_exists. now exists w. }
  rewrite !Hany. split.
  - intros [(a & b & Hs & Hd)|[(w & Hw & Hc)|(w & Hw & Hc)]].
    + left. apply digits_here_split in Hd as (d & rest & -> & Hd & Hall).
      now exists a, d, rest.
    + right. exists w. split; [|assumption].
      apply in_or_app. left. exact Hw.
    + right. exists w. split; [|assumption].
      apply in_or_app. right. exact Hw.
  - intros [(a & d & b & Hs & Hd & Hall)|(w & Hw & Hc)].
    + left. exists a, (d ++ b). split; [assumption|].
      apply digits_here_split. now exists d, b.
    + apply in_app_or in Hw.
      destruct Hw as [Hw|Hw]; [right; left | right; right];
        now exists w.
Qed.
End Finders.

Lemma findings_survive_extension_witness :
  incl (_find_dictionary_words (H := example_platform) (py "Admin"))
       (_find_dictionary_words (H := example_platform)
          (py "my" ++ py "Admin" ++ py "!1"))
  /\ incl (_find_keyboard_patterns (H := example_platform) (py "Admin"))
          (_find_keyboard_patterns (H := example_platform)
             (py "my" ++ py "Admin" ++ py "!1"))
  /\ (_contains_personal_info (H := example_platform) (py "Admin") = true ->
      _contains_personal_info (H := example_platform)
        (py "my" ++ py "Admin" ++ py "!1") = true).
Proof.
  exact (findings_survive_extension (H := example_platform)
           (py "my") (py "Admin") (py "!1") eq_refl eq_refl eq_refl).
Defined.

Lemma checks_ignore_ascii_case_witness :
  is_common (_security_checks (H := example_platform) analyzer
               (py "QwErTy"))
  = is_common (_security_checks (H := example_platform) analyzer
                 (py "qwerty"))
  /\ _check_pwned_passwords (H := example_platform) analyzer (py "QwErTy")
     = _check_pwned_passwords (H := example_platform) analyzer (py "qwerty")
  /\ _contains_personal_info (H := example_platform) (py "QwErTy")
     = _contains_personal_info (H := example_platform) (py "qwerty")
  /\ _find_dictionary_words (H := example_platform) (py "QwErTy")
     = _find_dictionary_words (H := example_platform) (py "qwerty")
  /\ _find_keyboard_patterns (H := example_platform) (py "QwErTy")
     = _find_keyboard_patterns (H := example_platform) (py "qwerty").
Proof.
  exact (checks_ignore_ascii_case (H := example_platform) analyzer
           (py "QwErTy") (py "qwerty") eq_refl eq_refl eq_refl).
Defined.

(** ** The crack-time string *)




(** ** The [/analyze] route *)

Lemma len_repeat (c : Z) (n : nat) : len (repeat c n) = Z.of_nat n.
Proof. unfold len. now rewrite repeat_length. Qed.

Section RouteProperties.
Context `{platform}.

(** X14: the route answers 400 with "Password is required" exactly when
    the body has no password or an empty one; a report it returns is the
    analyzer's report of the password sent, with the password replaced
    by as many asterisks as it has characters, so that the masked
    password still has the length the report states; the only other
    answer is the status 500 of the [OverflowError] of a password whose
    entropy is a finite float from 1024 on. *)
Theorem route_masks_the_password (data : str -> option str) :
  match analyze_password_route data with
  | Json400 error =>
      error = py "Password is required"
      /\ (data (py "password") = None \/ data (py "password") = Some [])
  | Json200 r =>
      exists p r0,
        data (py "password") = Some p /\ p <> []
        /\ analyze_password analyzer p = Ok r0
        /\ r = set_password r0 (repeat 42 (List.length p))
        /\ Forall (fun c => c = 42) (password r)
        /\ len (password r) = len p
        /\ pw_length r = len (password r)
  | Error500 e =>
      e = OverflowError
      /\ exists p x,
           data (py "password") = Some p /\ p <> []
           /\ _calculate_entropy p = Ok x /\ overflows x = true
  end.
Proof.
  unfold analyze_password_route.
  destruct (data (py "password")) as [[|c p]|] eqn:Ed;
    cbn [truthy negb];
    [split; [reflexivity | now right]
    | | split; [reflexivity | now left]].
  destruct (calculate_entropy_returns (c :: p)) as (x & Hx).
  assert (Ho := analyze_password_outcome analyzer (c :: p) x Hx).
  destruct (overflows x) eqn:Eo.
  - rewrite Ho. split; [reflexivity|].
    exists (c :: p), x. split; [reflexivity|].
    split; [discriminate|]. split; assumption.
  - destruct Ho as (r0 & Hr0). rewrite Hr0.
    exists (c :: p), r0. split; [reflexivity|].
    split; [discriminate|]. split; [assumption|].
    split; [reflexivity|]. cbn [set_password password pw_length].
    split; [|split].
    + apply Forall_forall. intros y Hy. now apply repeat_spec in Hy.
    + apply len_repeat.
    + destruct (analyze_password_returns analyzer _ _ Hr0)
        as (_ & _ & _ & _ & Hlen & _).
      rewrite Hlen. symmetry. apply len_repeat.
Qed.
End RouteProperties.

(** ** A generated password on the server *)

Lemma in_class_in_alphabet (c : ascii) :
  In c upper_chars \/ In c lower_chars \/ In c digit_chars
  \/ In c symbol_chars ->
  In c generator_alphabet.
Proof.
  change generator_alphabet
    with (upper_chars ++ lower_chars ++ digit_chars ++ symbol_chars).
  rewrite !in_app_iff. tauto.
Qed.

Lemma alphabet_is_ascii :
  forallb (fun c => is_ascii (code c)) generator_alphabet = true.
Proof. vm_compute. reflexivity. Qed.

Lemma classes_as_the_server_reads_them :
  forallb (fun c => re_upper (code c)) upper_chars = true
  /\ forallb (fun c => re_lower (code c)) lower_chars = true
  /\ forallb (fun c => re_digit (code c)) digit_chars = true
  /\ forallb (fun c => re_special (code c)) symbol_chars = true.
Proof. repeat split; vm_compute; reflexivity. Qed.

Lemma search_finds (cls : Z -> bool) (chars password : jsstr) (c : ascii) :
  forallb (fun c => cls (code c)) chars = true ->
  In c chars -> In c password ->
  re_search cls (str_of_js password) = true.
Proof.
  intros Hcls Hc Hp. unfold re_search. apply existsb_exists.
  exists (code c). split; [now apply in_map|].
  exact (proj1 (forallb_forall _ _) Hcls c Hc).
Qed.

Section GeneratedPassword.
Context `{platform}.
Variable random_values : nat -> Q.
Variable sort_random : jsstr -> rand jsstr.
Hypothesis random_values_range :
  forall i, (0 <= random_values i)%Q /\ (random_values i < 1)%Q.
Hypothesis sort_random_permutes :
  forall l s, Permutation l (fst (sort_random l s)).

(** The filling loop adds one character of [chars] a round. *)
Lemma fill_rounds_members (chars : jsstr) (rounds : list nat)
    (start : rand jsstr) (password : jsstr) (m : nat) :
  0 < len chars ->
  (forall s, exists added,
      fst (start s) = password ++ added /\ List.length added = m
      /\ Forall (fun c => In c chars) added) ->
  forall s, exists added,
    fst (for_in rounds
           (fun _ (acc : rand jsstr) =>
              (password <~ acc ;;
               i <~ random_index random_values (len chars) ;;
               ret (js_append password (js_index chars i)))%rand)
           start s)
    = password ++ added
    /\ List.length added = (m + List.length rounds)%nat
    /\ Forall (fun c => In c chars) added.
Proof.
  intros Hchars. unfold for_in. revert start m.
  induction rounds as [|x rounds IH]; intros start m Hstart s.
  - destruct (Hstart s) as (added & Ha & Hm & Hin).
    exists added. simpl. split; [assumption|]. split; [lia | assumption].
  - cbn [fold_left List.length].
    replace (m + S (List.length rounds))%nat
      with (S m + List.length rounds)%nat by lia.
    apply IH. clear s. intros s.
    destruct (Hstart s) as (added & Ha & Hm & Hin).
    unfold rbind at 1. destruct (start s) as [pw s1]. cbn [fst] in Ha.
    unfold rbind at 1.
    destruct (draw_appends_one random_values random_values_range
                chars pw s1 Hchars) as (c & Hcin & Hc).
    destruct (random_index random_values (len chars) s1) as [i s2].
    cbn [fst] in Hc. cbn [ret fst]. rewrite Hc, Ha.
    exists (added ++ [c]). rewrite app_assoc. split; [reflexivity|].
    split; [rewrite length_app; simpl; lia|].
    apply Forall_app. split; [assumption|]. now constructor.
Qed.

Lemma generatePassword_members (s : nat) :
  exists c1 c2 c3 c4 added,
    In c1 upper_chars /\ In c2 lower_chars /\ In c3 digit_chars
    /\ In c4 symbol_chars /\ List.length added = 12%nat
    /\ Forall (fun c => In c generator_alphabet) added
    /\ Permutation ([c1; c2; c3; c4] ++ added)
         (fst (generatePassword random_values sort_random s)).
Proof.
  unfold generatePassword. cbv beta zeta.
  unfold rbind at 1.
  destruct (draw_appends_one random_values random_values_range
              upper_chars (js "") s eq_refl) as (c1 & H1 & E1).
  change (len upper_chars) with 26 in E1.
  destruct (random_index random_values 26 s) as [i1 s1].
  cbn [fst] in E1. cbv beta iota. rewrite E1.
  unfold rbind at 1.
  destruct (draw_appends_one random_values random_values_range
              lower_chars (js "" ++ [c1]) s1 eq_refl) as (c2 & H2 & E2).
  change (len lower_chars) with 26 in E2.
  destruct (random_index random_values 26 s1) as [i2 s2].
  cbn [fst] in E2. cbv beta iota. rewrite E2.
  unfold rbind at 1.
  destruct (draw_appends_one random_values random_values_range
              digit_chars ((js "" ++ [c1]) ++ [c2]) s2 eq_refl)
    as (c3 & H3 & E3).
  change (len digit_chars) with 10 in E3.
  destruct (random_index random_values 10 s2) as [i3 s3].
  cbn [fst] in E3. cbv beta iota. rewrite E3.
  unfold rbind at 1.
  destruct (draw_appends_one random_values random_values_range
              symbol_chars (((js "" ++ [c1]) ++ [c2]) ++ [c3]) s3 eq_refl)
    as (c4 & H4 & E4).
  change (len symbol_chars) with 8 in E4.
  destruct (random_index random_values 8 s3) as [i4 s4].
  cbn [fst] in E4. cbv beta iota. rewrite E4.
  change ((((js "" ++ [c1]) ++ [c2]) ++ [c3]) ++ [c4])
    with [c1; c2; c3; c4].
  unfold rbind at 1. unfold fill.
  match goal with
  | |- context [let (a, s') := ?filling in _] =>
      assert (Hfill : exists added,
                 fst filling = [c1; c2; c3; c4] ++ added
                 /\ List.length added = 12%nat
                 /\ Forall (fun c => In c generator_alphabet) added)
        by exact (fill_rounds_members generator_alphabet
                    (py_range (16 - 4)) (ret [c1; c2; c3; c4])
                    [c1; c2; c3; c4] 0 eq_refl
                    (fun s => ex_intro _ []
                                (conj (eq_sym (app_nil_r _))
                                   (conj eq_refl (Forall_nil _))))
                    s4);
      destruct Hfill as (added & Ha & Hm & Hin);
      destruct filling as [filled s5]
  end.
  cbn [fst] in Ha. subst filled. cbv beta iota.
  exists c1, c2, c3, c4, added.
  repeat (split; [assumption|]). apply sort_random_permutes.
Qed.

(** X15: what the generator of the page produces passes the server's
    checks: read by the server, a generated password is ASCII, meets
    every basic requirement (at least 8 characters, an uppercase and a
    lowercase letter, a digit, a special character), and is not in the
    list of common passwords, so neither [is_common] nor [pwned_check]
    is set. *)
Theorem generated_password_passes_the_checks (s : nat) :
  let password :=
    str_of_js (fst (generatePassword random_values sort_random s)) in
  forallb is_ascii password = true
  /\ all_met (_meets_basic_requirements password) = true
  /\ is_common (_security_checks analyzer password) = false
  /\ pwned_check (_security_checks analyzer password) = false.
Proof.
  destruct (generatePassword_members s)
    as (c1 & c2 & c3 & c4 & added & H1 & H2 & H3 & H4 & Hm & Hin & Hp).
  cbv zeta.
  set (generated := fst (generatePassword random_values sort_random s))
    in *.
  assert (Hlen : len (str_of_js generated) = 16).
  { unfold len, str_of_js.
    rewrite length_map, <- (Permutation_length Hp), length_app, Hm.
    reflexivity. }
  assert (Hmem : forall c, In c generated -> In c generator_alphabet).
  { intros c Hc. apply Permutation_sym in Hp.
    apply (Permutation_in _ Hp) in Hc. apply in_app_iff in Hc as [Hc|Hc].
    - apply in_class_in_alphabet.
      destruct Hc as [<-|[<-|[<-|[<-|[]]]]]; tauto.
    - exact (proj1 (Forall_forall _ _) Hin c Hc). }
  assert (Hascii : forallb is_ascii (str_of_js generated) = true).
  { apply forallb_forall. intros x Hx. unfold str_of_js in Hx.
    apply in_map_iff in Hx as (c & <- & Hc).
    exact (proj1 (forallb_forall _ _) alphabet_is_ascii c (Hmem c Hc)). }
  assert (Hnot : list_contains (lower (str_of_js generated))
                   _load_common_passwords = false).
  { destruct (list_contains (lower (str_of_js generated))
                _load_common_passwords) eqn:E; [|reflexivity].
    apply list_contains_In in E.
    assert (Hplain := proj1 (forallb_forall _ _)
                        common_entries_plain_and_short _ E).
    apply andb_true_iff in Hplain as [_ Hshort].
    apply Z.leb_le in Hshort. rewrite (lower_ascii _ Hascii) in Hshort.
    unfold len in Hshort, Hlen. rewrite length_map in Hshort. lia. }
  destruct classes_as_the_server_reads_them as (Ku & Kl & Kd & Ks).
  split; [assumption|]. split; [|split; exact Hnot].
  cbn [_meets_basic_requirements all_met forallb]. rewrite Hlen.
  rewrite (search_finds re_upper upper_chars generated c1 Ku H1)
    by (apply (Permutation_in _ Hp); simpl; auto).
  rewrite (search_finds re_lower lower_chars generated c2 Kl H2)
    by (apply (Permutation_in _ Hp); simpl; auto).
  rewrite (search_finds re_digit digit_chars generated c3 Kd H3)
    by (apply (Permutation_in _ Hp); simpl; auto).
  rewrite (search_finds re_special symbol_chars generated c4 Ks H4)
    by (apply (Permutation_in _ Hp); simpl; auto).
  reflexivity.
Qed.
End GeneratedPassword.

Lemma generated_password_passes_the_checks_witness :
  let password :=
    str_of_js (fst (generatePassword zero_draws sort_keep 0%nat)) in
  forallb is_ascii password = true
  /\ all_met (_meets_basic_requirements password) = true
  /\ is_common (_security_checks (H := example_platform) analyzer password)
     = false
  /\ pwned_check
       (_security_checks (H := example_platform) analyzer password)
     = false.
Proof.
  exact (generated_password_passes_the_checks (H := example_platform)
           zero_draws sort_keep zero_draws_range sort_keep_permutes 0%nat).
Defined.
